(** * Chat board: conversation store, identifier allocation, JSON persistence

    A shallow embedding of [chat_board.py] (classes [Message],
    [Conversation] and [ChatBoard]) and the properties of its store.

    Layout of the development:
    - the values [json.load] returns, and the Python operations the loader
      applies to them (subscript, [.get], iteration, truth value);
    - the environment a [ChatBoard] runs in (the storage file, the console,
      the wall clock), threaded through a state-and-exception monad;
    - the three classes and every method of [ChatBoard];
    - the loader ([from_dict], [load_data], [__init__]);
    - the properties.

    Modelling conventions.

    The methods are modelled on objects whose attributes have the types
    the source declares for them: [str] titles, authors, contents and
    times, [Optional[int]] conversation ids, an [int] counter (Python
    integers are unbounded, hence [Z]), [Optional[str]] for the user.

    The loader checks no type, so it is modelled on every document and
    builds objects whose attributes hold arbitrary values ([LoadedMessage],
    [LoadedConversation], [LoadedBoard]); [loaded_of_board] tells how a
    typed store looks in that representation.

    [json.dump] followed by [json.load] is taken as the identity on
    documents: the storage file holds the document tree, or is
    [Unparsable] when its text is no JSON at all.  Writing the file is
    assumed to succeed (the source does not handle I/O errors either).
    The terminal menu ([ChatBoardUI]) is not part of the store. *)

From Stdlib Require Import List ZArith String Ascii Bool Lia Sorted.
From Stdlib Require Import SpecFloat.
Import ListNotations.

Local Open Scope string_scope.
Local Close Scope list_scope.
Local Open Scope list_scope.
Set Warnings "-register-all".

(** ** Values produced by [json.load] *)

(** Python objects a JSON text parses to: [None], [bool], [int], [float],
    [str], [list] and [dict] with [str] keys.  A [dict] is kept as its list
    of items; [json.load] leaves a key at most once, and lookups take the
    first item with the key. *)
Inductive json : Type :=
| JNull
| JBool (b : bool)
| JInt (n : Z)
| JFloat (f : spec_float)
| JStr (s : string)
| JArr (items : list json)
| JObj (fields : list (string * json)).

Fixpoint dict_lookup (key : string) (fields : list (string * json)) : option json :=
  match fields with
  | [] => None
  | (k, v) :: rest => if String.eqb k key then Some v else dict_lookup key rest
  end.

(** Truth value of an object, as [bool(x)], [if x] and [x or y] compute it. *)
Definition truthy (x : json) : bool :=
  match x with
  | JNull => false
  | JBool b => b
  | JInt n => negb (Z.eqb n 0)
  | JFloat (S754_zero _) => false
  | JFloat _ => true
  | JStr s => negb (String.eqb s "")
  | JArr items => match items with [] => false | _ => true end
  | JObj fields => match fields with [] => false | _ => true end
  end.

(** ** Exceptions *)

Inductive exn : Type :=
| JSONDecodeError
| KeyError (key : string)
| TypeError
| AttributeError.

(** The handler of [load_data]: [except (json.JSONDecodeError, KeyError)]. *)
Definition caught_by_load_data (e : exn) : bool :=
  match e with
  | JSONDecodeError | KeyError _ => true
  | TypeError | AttributeError => false
  end.

(** ** The environment *)

(** What [datetime.datetime.now()] returns. *)
Record datetime : Type := mk_datetime {
  year : nat; month : nat; day : nat;
  hour : nat; minute : nat; second : nat
}.

Definition digit (n : nat) : ascii :=
  ascii_of_nat (48 + Nat.modulo n 10).

Definition pad2 (n : nat) : string :=
  String (digit (Nat.div n 10)) (String (digit n) "").

Definition pad4 (n : nat) : string :=
  String (digit (Nat.div n 1000)) (String (digit (Nat.div n 100)) (pad2 n)).

(** [strftime("%Y-%m-%d %H:%M:%S")]. *)
Definition strftime (t : datetime) : string :=
  (pad4 (year t) ++ "-" ++ pad2 (month t) ++ "-" ++ pad2 (day t) ++ " "
   ++ pad2 (hour t) ++ ":" ++ pad2 (minute t) ++ ":" ++ pad2 (second t))%string.

(** Contents of the storage file when it exists. *)
Inductive file_content : Type :=
| Unparsable
| Document (doc : json).

(** The world outside the store.  [storage] is the file at [storage_file]
    ([None] when [os.path.exists] is false), [written] the documents
    [save_data] has dumped so far (newest first), [console] the exceptions
    reported by the warning of [load_data] (newest first), and the wall
    clock answers its [ticks]-th reading with [clock ticks]. *)
Record World : Type := mk_World {
  storage : option file_content;
  written : list json;
  console : list exn;
  clock : nat -> datetime;
  ticks : nat
}.

Definition with_storage (doc : json) (w : World) : World :=
  {| storage := Some (Document doc); written := doc :: written w;
     console := console w; clock := clock w; ticks := ticks w |}.

Definition with_console (e : exn) (w : World) : World :=
  {| storage := storage w; written := written w;
     console := e :: console w; clock := clock w; ticks := ticks w |}.

Definition with_tick (w : World) : World :=
  {| storage := storage w; written := written w;
     console := console w; clock := clock w; ticks := S (ticks w) |}.

(** ** Computations: world passing with exceptions *)

Inductive outcome (A : Type) : Type :=
| Return (a : A) (w : World)
| Raise (e : exn) (w : World).

Arguments Return {A} a w.
Arguments Raise {A} e w.

Definition M (A : Type) : Type := World -> outcome A.

Definition ret {A} (a : A) : M A := fun w => Return a w.

Definition raise {A} (e : exn) : M A := fun w => Raise e w.

Definition bind {A B} (c : M A) (k : A -> M B) : M B :=
  fun w => match c w with
           | Return a w' => k a w'
           | Raise e w' => Raise e w'
           end.

Notation "x <- c ;; k" := (bind c (fun x => k))
  (at level 61, c at next level, right associativity).
Notation "c ;;; k" := (bind c (fun _ => k))
  (at level 61, right associativity).

(** [try: body except (json.JSONDecodeError, KeyError) as e: handler e]. *)
Definition try_except {A} (body : M A) (handler : exn -> M A) : M A :=
  fun w => match body w with
           | Return a w' => Return a w'
           | Raise e w' => if caught_by_load_data e then handler e w' else Raise e w'
           end.

(** [datetime.datetime.now().strftime("%Y-%m-%d %H:%M:%S")]. *)
Definition now : M string :=
  fun w => Return (strftime (clock w (ticks w))) (with_tick w).

(** [print(f"Warning: Could not load data file: {e}")]. *)
Definition print_warning (e : exn) : M unit :=
  fun w => Return tt (with_console e w).

Fixpoint mapM {A B} (f : A -> M B) (l : list A) : M (list B) :=
  match l with
  | [] => ret []
  | x :: rest => y <- f x ;; ys <- mapM f rest ;; ret (y :: ys)
  end.

(** ** Python operations on loaded values *)

(** [data[key]] with a [str] key. *)
Definition getitem (data : json) (key : string) : M json :=
  match data with
  | JObj fields =>
      match dict_lookup key fields with
      | Some v => ret v
      | None => raise (KeyError key)
      end
  | _ => raise TypeError
  end.

(** [data.get(key, default)]: only a [dict] has the method. *)
Definition get_default (data : json) (key : string) (default : json) : M json :=
  match data with
  | JObj fields =>
      match dict_lookup key fields with
      | Some v => ret v
      | None => ret default
      end
  | _ => raise AttributeError
  end.

(** [for x in data]: the elements of a list, the characters of a string,
    the keys of a dict; anything else is not iterable. *)
Definition iterate (data : json) : M (list json) :=
  match data with
  | JArr items => ret items
  | JStr s => ret (map (fun c => JStr (String c "")) (list_ascii_of_string s))
  | JObj fields => ret (map (fun kv => JStr (fst kv)) fields)
  | _ => raise TypeError
  end.

(** ** The classes, with the attribute types their annotations declare *)

(** [class Message]: [author: str], [content: str], [timestamp: str]. *)
Record Message : Type := mk_Message {
  author : string;
  content : string;
  timestamp : string
}.

(** [class Conversation]: [title: str], [conversation_id: Optional[int]],
    [messages: List[Message]], [created_at] a formatted time. *)
Record Conversation : Type := mk_Conversation {
  title : string;
  conversation_id : option Z;
  created_at : string;
  messages : list Message
}.

(** [class ChatBoard]: [conversations: List[Conversation]],
    [current_user: Optional[str]], [next_conversation_id] an [int].
    [storage_file] names the one file of the [World]. *)
Record ChatBoard : Type := mk_ChatBoard {
  conversations : list Conversation;
  current_user : option string;
  next_conversation_id : Z
}.

(** *** Message *)

(** [Message.__init__]: [self.timestamp = timestamp or now()], so an absent
    and an empty timestamp both take a clock reading. *)
Definition Message_init (a c : string) (t : option string) : M Message :=
  match t with
  | Some s =>
      if String.eqb s "" then s' <- now ;; ret (mk_Message a c s')
      else ret (mk_Message a c s)
  | None => s' <- now ;; ret (mk_Message a c s')
  end.

Definition Message_to_dict (m : Message) : json :=
  JObj [("author", JStr (author m));
        ("content", JStr (content m));
        ("timestamp", JStr (timestamp m))].

(** *** Conversation *)

Definition Conversation_init (t : string) (id : option Z) : M Conversation :=
  s <- now ;; ret (mk_Conversation t id s []).

Definition add_message (conv : Conversation) (m : Message) : Conversation :=
  mk_Conversation (title conv) (conversation_id conv) (created_at conv)
                  (messages conv ++ [m]).

Definition get_message_count (conv : Conversation) : nat :=
  List.length (messages conv).

Definition id_to_json (id : option Z) : json :=
  match id with
  | Some n => JInt n
  | None => JNull
  end.

Definition Conversation_to_dict (conv : Conversation) : json :=
  JObj [("title", JStr (title conv));
        ("conversation_id", id_to_json (conversation_id conv));
        ("created_at", JStr (created_at conv));
        ("messages", JArr (map Message_to_dict (messages conv)))].

(** *** ChatBoard *)

(** The document [save_data] builds before dumping it. *)
Definition ChatBoard_to_dict (self : ChatBoard) : json :=
  JObj [("conversations", JArr (map Conversation_to_dict (conversations self)));
        ("next_conversation_id", JInt (next_conversation_id self))].

(** [save_data]: [open(storage_file, 'w')] and [json.dump]. *)
Definition save_data (self : ChatBoard) : M unit :=
  fun w => Return tt (with_storage (ChatBoard_to_dict self) w).

(** Methods that assign to [self] return the updated object. *)
Definition set_username (username : string) (self : ChatBoard) : M ChatBoard :=
  ret (mk_ChatBoard (conversations self) (Some username) (next_conversation_id self)).

Definition create_conversation (t : string) (self : ChatBoard)
  : M (Conversation * ChatBoard) :=
  conversation <- Conversation_init t (Some (next_conversation_id self)) ;;
  let self1 := mk_ChatBoard (conversations self) (current_user self)
                            (next_conversation_id self + 1) in
  let self2 := mk_ChatBoard (conversations self1 ++ [conversation])
                            (current_user self1) (next_conversation_id self1) in
  save_data self2 ;;;
  ret (conversation, self2).

(** [conv.conversation_id == conversation_id] for an [int] argument. *)
Definition has_id (id : Z) (conv : Conversation) : bool :=
  match conversation_id conv with
  | Some n => Z.eqb n id
  | None => false
  end.

Definition get_conversation (id : Z) (self : ChatBoard) : option Conversation :=
  find (has_id id) (conversations self).

Definition list_conversations (self : ChatBoard) : list Conversation :=
  conversations self.

(** The loop [for i, conv in enumerate(...)]: index of the first match. *)
Fixpoint first_index (id : Z) (l : list Conversation) (i : nat) : option nat :=
  match l with
  | [] => None
  | conv :: rest => if has_id id conv then Some i else first_index id rest (S i)
  end.

(** [l.pop(i)], keeping the list. *)
Definition pop (i : nat) (l : list Conversation) : list Conversation :=
  firstn i l ++ skipn (S i) l.

Definition delete_conversation (id : Z) (self : ChatBoard) : M (bool * ChatBoard) :=
  match first_index id (conversations self) 0 with
  | Some i =>
      let self' := mk_ChatBoard (pop i (conversations self)) (current_user self)
                                (next_conversation_id self) in
      save_data self' ;;;
      ret (true, self')
  | None => ret (false, self)
  end.

(** [get_conversation] hands out the first list element with the id, and
    [add_message] mutates that object in place: in the list, the first
    element with the id is replaced by its extension. *)
Fixpoint mutate_first (id : Z) (f : Conversation -> Conversation)
         (l : list Conversation) : list Conversation :=
  match l with
  | [] => []
  | conv :: rest =>
      if has_id id conv then f conv :: rest else conv :: mutate_first id f rest
  end.

(** Truth value of [self.current_user]: [None] and [""] are false. *)
Definition active_user (self : ChatBoard) : option string :=
  match current_user self with
  | Some u => if String.eqb u "" then None else Some u
  | None => None
  end.

Definition post_message (id : Z) (c : string) (self : ChatBoard)
  : M (bool * ChatBoard) :=
  match get_conversation id self, active_user self with
  | Some _, Some user =>
      message <- Message_init user c None ;;
      let self' := mk_ChatBoard
                     (mutate_first id (fun conv => add_message conv message)
                                   (conversations self))
                     (current_user self) (next_conversation_id self) in
      save_data self' ;;;
      ret (true, self')
  | _, _ => ret (false, self)
  end.

(** *** The command surface *)

Inductive command : Type :=
| SetUsername (username : string)
| CreateConversation (t : string)
| GetConversation (id : Z)
| ListConversations
| DeleteConversation (id : Z)
| PostMessage (id : Z) (c : string).

Inductive response : Type :=
| Done
| Created (conv : Conversation)
| Found (conv : option Conversation)
| Listing (convs : list Conversation)
| Deleted (ok : bool)
| Posted (ok : bool).

Definition exec (cmd : command) (self : ChatBoard) : M (response * ChatBoard) :=
  match cmd with
  | SetUsername u => self' <- set_username u self ;; ret (Done, self')
  | CreateConversation t =>
      r <- create_conversation t self ;; ret (Created (fst r), snd r)
  | GetConversation id => ret (Found (get_conversation id self), self)
  | ListConversations => ret (Listing (list_conversations self), self)
  | DeleteConversation id =>
      r <- delete_conversation id self ;; ret (Deleted (fst r), snd r)
  | PostMessage id c =>
      r <- post_message id c self ;; ret (Posted (fst r), snd r)
  end.

Fixpoint run (cmds : list command) (self : ChatBoard)
  : M (list response * ChatBoard) :=
  match cmds with
  | [] => ret ([], self)
  | cmd :: rest =>
      r <- exec cmd self ;;
      rs <- run rest (snd r) ;;
      ret (fst r :: fst rs, snd rs)
  end.

(** ** Loading *)

(** Objects as the loader builds them.  Nothing checks a loaded value
    against the annotation of the attribute it lands in, so each attribute
    holds whatever the document held at that key. *)
Record LoadedMessage : Type := mk_LoadedMessage {
  loaded_author : json;
  loaded_content : json;
  loaded_timestamp : json
}.

Record LoadedConversation : Type := mk_LoadedConversation {
  loaded_title : json;
  loaded_conversation_id : json;
  loaded_created_at : json;
  loaded_messages : list LoadedMessage
}.

Record LoadedBoard : Type := mk_LoadedBoard {
  loaded_conversations : list LoadedConversation;
  loaded_current_user : option string;
  loaded_next_conversation_id : json
}.

(** [Message.__init__] on loaded arguments: [timestamp or now()]. *)
Definition Message_init_loaded (a c t : json) : M LoadedMessage :=
  if truthy t then ret (mk_LoadedMessage a c t)
  else s <- now ;; ret (mk_LoadedMessage a c (JStr s)).

Definition Message_from_dict (data : json) : M LoadedMessage :=
  a <- getitem data "author" ;;
  c <- getitem data "content" ;;
  t <- getitem data "timestamp" ;;
  Message_init_loaded a c t.

(** [Conversation.from_dict]: the constructor reads the clock for
    [created_at], which the next statement overwrites. *)
Definition Conversation_from_dict (data : json) : M LoadedConversation :=
  t <- getitem data "title" ;;
  id <- getitem data "conversation_id" ;;
  now ;;;
  created <- getitem data "created_at" ;;
  raw <- getitem data "messages" ;;
  items <- iterate raw ;;
  msgs <- mapM Message_from_dict items ;;
  ret (mk_LoadedConversation t id created msgs).

Definition json_load (c : file_content) : M json :=
  match c with
  | Unparsable => raise JSONDecodeError
  | Document doc => ret doc
  end.

(** [load_data].  The handler runs on the attributes as they were on
    entry: an exception it catches is raised before the first assignment of
    the [try] body completes. *)
Definition load_data (self : LoadedBoard) : M LoadedBoard :=
  fun w =>
    match storage w with
    | None => Return self w
    | Some c =>
        try_except
          (data <- json_load c ;;
           raw <- get_default data "conversations" (JArr []) ;;
           items <- iterate raw ;;
           convs <- mapM Conversation_from_dict items ;;
           next <- get_default data "next_conversation_id" (JInt 1) ;;
           ret (mk_LoadedBoard convs (loaded_current_user self) next))
          (fun e =>
             print_warning e ;;;
             ret (mk_LoadedBoard [] (loaded_current_user self)
                                 (loaded_next_conversation_id self)))
          w
    end.

(** [ChatBoard.__init__]. *)
Definition ChatBoard_init : M LoadedBoard :=
  load_data (mk_LoadedBoard [] None (JInt 1)).

(** How a typed object looks to the loader's representation. *)
Definition loaded_of_message (m : Message) : LoadedMessage :=
  mk_LoadedMessage (JStr (author m)) (JStr (content m)) (JStr (timestamp m)).

Definition loaded_of_conversation (conv : Conversation) : LoadedConversation :=
  mk_LoadedConversation (JStr (title conv)) (id_to_json (conversation_id conv))
                        (JStr (created_at conv))
                        (map loaded_of_message (messages conv)).

Definition loaded_of_board (self : ChatBoard) : LoadedBoard :=
  mk_LoadedBoard (map loaded_of_conversation (conversations self))
                 (current_user self) (JInt (next_conversation_id self)).

(** Stores the program can be in: built by [__init__] from some state of
    the world, then driven by the command surface.  The world a command
    finds is not tied to the world the previous one left: the file may be
    touched from outside in between. *)
Inductive reachable : ChatBoard -> Prop :=
| reachable_init (w w' : World) (self : ChatBoard) :
    ChatBoard_init w = Return (loaded_of_board self) w' ->
    reachable self
| reachable_exec (cmd : command) (self self' : ChatBoard) (r : response)
                 (w w' : World) :
    reachable self ->
    exec cmd self w = Return (r, self') w' ->
    reachable self'.

(** Every message of the store carries a time. *)
Definition timestamps_set (self : ChatBoard) : Prop :=
  Forall (fun conv => Forall (fun m => timestamp m <> "") (messages conv))
         (conversations self).

(** The conversations handed out by [create_conversation] during a run. *)
Fixpoint created (rs : list response) : list Conversation :=
  match rs with
  | [] => []
  | Created conv :: rest => conv :: created rest
  | _ :: rest => created rest
  end.

(** The answers of [post_message] during a run. *)
Fixpoint posted (rs : list response) : list bool :=
  match rs with
  | [] => []
  | Posted ok :: rest => ok :: posted rest
  | _ :: rest => posted rest
  end.

Definition is_set_username (cmd : command) : bool :=
  match cmd with
  | SetUsername _ => true
  | _ => false
  end.

(** The part of the store [save_data] writes. *)
Definition stored_part (self : ChatBoard) : list Conversation * Z :=
  (conversations self, next_conversation_id self).

(** Every conversation of the store carries an id below the counter. *)
Definition ids_below_counter (self : ChatBoard) : Prop :=
  Forall (fun conv => exists n, conversation_id conv = Some n
                                /\ (n < next_conversation_id self)%Z)
         (conversations self).

(** The store with another value of [current_user]. *)
Definition with_user (u : option string) (self : ChatBoard) : ChatBoard :=
  mk_ChatBoard (conversations self) u (next_conversation_id self).

(** Between [w] and [w'] the state [self] was dumped to the file, and that
    dump is the last one. *)
Definition persisted_by (self : ChatBoard) (w w' : World) : Prop :=
  storage w' = Some (Document (ChatBoard_to_dict self))
  /\ written w' = ChatBoard_to_dict self :: written w.

(** [n] further clock readings. *)
Fixpoint advance (n : nat) (w : World) : World :=
  match n with
  | O => w
  | S n' => advance n' (with_tick w)
  end.

(** The entry of a dict at a key, or a default. *)
Definition entry_or (key : string) (default : json) (fields : list (string * json)) : json :=
  match dict_lookup key fields with
  | Some v => v
  | None => default
  end.

(** The exceptions the walk over a document raises by itself. *)
Definition walk_error (e : exn) : bool :=
  match e with
  | TypeError | KeyError _ => true
  | JSONDecodeError | AttributeError => false
  end.

(** Every loaded message carries a time. *)
Definition loaded_timestamps_set (self : LoadedBoard) : Prop :=
  Forall (fun conv =>
            Forall (fun m => truthy (loaded_timestamp m) = true)
                   (loaded_messages conv))
         (loaded_conversations self).

(** ** Sample states *)

Definition noon : datetime := mk_datetime 2024 5 17 12 0 0.

Definition fresh_world : World := mk_World None [] [] (fun _ => noon) 0.

Definition world_with (c : file_content) : World :=
  mk_World (Some c) [] [] (fun _ => noon) 0.

Definition empty_board : ChatBoard := mk_ChatBoard [] None 1.

Definition lunch : Conversation :=
  mk_Conversation "Lunch plans" (Some 1%Z) "2024-05-17 12:00:00" [].

Definition lunch_board (user : option string) : ChatBoard :=
  mk_ChatBoard [lunch] user 2.

Definition posted_board : ChatBoard :=
  mk_ChatBoard
    [mk_Conversation "Lunch plans" (Some 1%Z) "2024-05-17 12:00:00"
       [mk_Message "alice" "Where should we eat?" "2024-05-17 12:00:00"]]
    (Some "alice") 2.

(** ** Further notions about the store and the loader *)

(** The ids of the store, in list order. *)
Definition store_ids (self : ChatBoard) : list (option Z) :=
  map conversation_id (conversations self).

(** The numbering [create_conversation] produces: every conversation
    carries an id, the ids grow strictly along the list, and all lie below
    the counter. *)
Definition well_numbered (self : ChatBoard) : Prop :=
  exists ids,
    store_ids self = map Some ids
    /\ StronglySorted Z.lt ids
    /\ Forall (fun id => (id < next_conversation_id self)%Z) ids.

(** [conv'] is [conv] with further messages at the end. *)
Definition extends (conv conv' : Conversation) : Prop :=
  title conv' = title conv
  /\ conversation_id conv' = conversation_id conv
  /\ created_at conv' = created_at conv
  /\ exists more, messages conv' = messages conv ++ more.

(** The file holds the dump of the store. *)
Definition in_sync (self : ChatBoard) (w : World) : Prop :=
  storage w = Some (Document (ChatBoard_to_dict self)).

(** The answers that come with a [save_data]. *)
Definition is_mutation (r : response) : bool :=
  match r with
  | Created _ | Deleted true | Posted true => true
  | _ => false
  end.

Definition mutations (rs : list response) : nat :=
  List.length (filter is_mutation rs).

(** [w'] differs from [w] by clock readings at most. *)
Definition only_ticks (w w' : World) : Prop :=
  storage w' = storage w /\ written w' = written w
  /\ console w' = console w /\ clock w' = clock w.

(** A computation that reads the clock and does nothing else to the
    world, whether it returns or raises. *)
Definition quiet {A} (c : M A) : Prop :=
  forall w, match c w with
            | Return _ w' => only_ticks w w'
            | Raise _ w' => only_ticks w w'
            end.

(** The key at which [Conversation.from_dict] first fails on a dict: it
    subscripts [title], [conversation_id], [created_at] and [messages] in
    this order. *)
Definition first_missing_key (fields : list (string * json)) : option string :=
  find (fun key => match dict_lookup key fields with
                   | Some _ => false
                   | None => true
                   end)
       ["title"; "conversation_id"; "created_at"; "messages"].

Definition is_object (doc : json) : bool :=
  match doc with
  | JObj _ => true
  | _ => false
  end.

(** Worlds the program leaves behind when it starts without a file and is
    run any number of times, each time constructing the store and
    executing some commands; with them, the ids handed out by
    [create_conversation] over all these runs, oldest first. *)
Inductive left_behind : World -> list Z -> Prop :=
| left_behind_start (w : World) :
    storage w = None ->
    left_behind w []
| left_behind_session (w w1 w2 : World) (issued ids : list Z)
                      (self self' : ChatBoard)
                      (cmds : list command) (rs : list response) :
    left_behind w issued ->
    ChatBoard_init w = Return (loaded_of_board self) w1 ->
    run cmds self w1 = Return (rs, self') w2 ->
    map conversation_id (created rs) = map Some ids ->
    left_behind w2 (issued ++ ids).

Definition is_list (doc : json) : bool :=
  match doc with
  | JArr _ => true
  | _ => false
  end.

(** A file with one conversation whose only message has no time. *)
Definition untimed_world : World :=
  world_with
    (Document
       (JObj [("conversations",
               JArr [JObj [("title", JStr "t"); ("conversation_id", JInt 1);
                           ("created_at", JStr "c");
                           ("messages",
                            JArr [JObj [("author", JStr "a");
                                        ("content", JStr "x");
                                        ("timestamp", JNull)]])]])])).

(** What the file says about the ids handed out so far: either there is no
    file and none was handed out, or the file is the dump of a store that
    is numbered as by [create_conversation], has timed messages, and whose
    counter lies above all of them. *)
Definition settled (w : World) (issued : list Z) : Prop :=
  (storage w = None /\ issued = [])
  \/ exists self,
       well_numbered self /\ timestamps_set self /\ in_sync self w
       /\ Forall (fun id => (id < next_conversation_id self)%Z) issued.

(** * Properties *)

(** ** A first run *)

Example lunch_scenario :
  exists w',
    run [CreateConversation "Lunch plans"; SetUsername "alice";
         PostMessage 1 "Where should we eat?"; GetConversation 1;
         DeleteConversation 1; ListConversations;
         CreateConversation "New topic"] empty_board fresh_world
    = Return
        ([Created lunch; Done; Posted true;
          Found (Some (mk_Conversation "Lunch plans" (Some 1%Z) "2024-05-17 12:00:00"
                         [mk_Message "alice" "Where should we eat?"
                                     "2024-05-17 12:00:00"]));
          Deleted true; Listing [];
          Created (mk_Conversation "New topic" (Some 2%Z) "2024-05-17 12:00:00" [])],
         mk_ChatBoard
           [mk_Conversation "New topic" (Some 2%Z) "2024-05-17 12:00:00" []]
           (Some "alice") 3)
        w'.
Proof. eexists. vm_compute. reflexivity. Qed.

(** ** Equations of the methods *)

Lemma bind_Return {A B} (c : M A) (k : A -> M B) (w w' : World) (b : B) :
  bind c k w = Return b w' ->
  exists a w1, c w = Return a w1 /\ k a w1 = Return b w'.
Proof.
  unfold bind. destruct (c w) as [a w1 | e w1]; intros H.
  - exists a, w1. split; [reflexivity | exact H].
  - discriminate H.
Qed.

Lemma strftime_nonempty (t : datetime) : strftime t <> "".
Proof. unfold strftime, pad4. simpl. discriminate. Qed.

Lemma create_conversation_eq (t : string) (self : ChatBoard) (w : World) :
  let conv := mk_Conversation t (Some (next_conversation_id self))
                              (strftime (clock w (ticks w))) [] in
  let self' := mk_ChatBoard (conversations self ++ [conv]) (current_user self)
                            (next_conversation_id self + 1) in
  create_conversation t self w
  = Return (conv, self') (with_storage (ChatBoard_to_dict self') (with_tick w)).
Proof. reflexivity. Qed.

Lemma first_index_none (id : Z) (l : list Conversation) (i : nat) :
  first_index id l i = None <-> Forall (fun conv => has_id id conv = false) l.
Proof.
  revert i. induction l as [| conv rest IH]; intros i; simpl.
  - split; [constructor | reflexivity].
  - destruct (has_id id conv) eqn:E.
    + split; [discriminate |]. intros H. inversion H; subst. congruence.
    + rewrite IH. split; intros H.
      * constructor; assumption.
      * inversion H; assumption.
Qed.

Lemma first_index_some (id : Z) (l : list Conversation) (i j : nat) :
  first_index id l i = Some j ->
  exists before target after,
    l = before ++ target :: after /\ has_id id target = true
    /\ Forall (fun conv => has_id id conv = false) before
    /\ j = (i + List.length before)%nat.
Proof.
  revert i. induction l as [| conv rest IH]; intros i; simpl.
  - discriminate.
  - destruct (has_id id conv) eqn:E; intros H.
    + injection H as <-. exists [], conv, rest. simpl.
      split; [reflexivity | split; [exact E | split; [constructor | lia]]].
    + destruct (IH _ H) as (before & target & after & -> & Ht & Hb & ->).
      exists (conv :: before), target, after. simpl.
      split; [reflexivity | split; [exact Ht | split; [constructor; assumption | lia]]].
Qed.

Lemma pop_middle (before after : list Conversation) (target : Conversation) :
  pop (List.length before) (before ++ target :: after) = before ++ after.
Proof.
  unfold pop. rewrite firstn_app, Nat.sub_diag, firstn_all. simpl.
  rewrite app_nil_r. f_equal.
  induction before as [| c rest IH]; simpl; [reflexivity | exact IH].
Qed.

Lemma has_id_true (id : Z) (conv : Conversation) :
  has_id id conv = true <-> conversation_id conv = Some id.
Proof.
  unfold has_id. destruct (conversation_id conv) as [n |].
  - rewrite Z.eqb_eq. split; congruence.
  - split; discriminate.
Qed.

Lemma has_id_false (id : Z) (conv : Conversation) :
  has_id id conv = false <-> conversation_id conv <> Some id.
Proof.
  rewrite <- has_id_true. destruct (has_id id conv); split; congruence.
Qed.

Lemma delete_conversation_absent (id : Z) (self : ChatBoard) (w : World) :
  Forall (fun conv => has_id id conv = false) (conversations self) ->
  delete_conversation id self w = Return (false, self) w.
Proof.
  intros H. unfold delete_conversation.
  apply (first_index_none id _ 0) in H. rewrite H. reflexivity.
Qed.

Lemma delete_conversation_present (id : Z) (self : ChatBoard) (w : World)
      (before after : list Conversation) (target : Conversation) :
  conversations self = before ++ target :: after ->
  has_id id target = true ->
  Forall (fun conv => has_id id conv = false) before ->
  let self' := mk_ChatBoard (before ++ after) (current_user self)
                            (next_conversation_id self) in
  delete_conversation id self w
  = Return (true, self') (with_storage (ChatBoard_to_dict self') w).
Proof.
  intros Hl Ht Hb self'. unfold delete_conversation.
  destruct (first_index id (conversations self) 0) as [j |] eqn:E.
  - destruct (first_index_some _ _ _ _ E) as (b & t & a & Hl' & Ht' & Hb' & ->).
    assert (b = before) as ->.
    { rewrite Hl in Hl'. clear E Hl self'. revert b Hl' Hb'.
      induction Hb as [| c rest Hc Hrest IH]; intros b Hl' Hb'.
      - destruct b as [| c' b']; [reflexivity |].
        simpl in Hl'. injection Hl' as -> _. inversion Hb'; congruence.
      - destruct b as [| c' b'].
        + simpl in Hl'. injection Hl' as -> _. congruence.
        + simpl in Hl'. injection Hl' as -> Hl'. inversion Hb'; subst.
          f_equal. apply IH; assumption. }
    rewrite Hl. simpl. rewrite pop_middle. reflexivity.
  - apply first_index_none in E. rewrite Hl in E.
    apply Forall_app in E as [_ E]. inversion E; congruence.
Qed.

(** ** Deleting *)

(** C5.  [delete_conversation id] on an id no conversation carries answers
    [False] and changes neither the store nor the world (nothing is
    written); on an id some conversation carries it answers [True], removes
    the first conversation with that id and no other, keeps the remaining
    conversations as they were and in their order, and writes the new
    state to the file. *)
Theorem delete_conversation_removes_exactly (id : Z) (self : ChatBoard) (w : World) :
  ((forall conv, In conv (conversations self) -> conversation_id conv <> Some id) ->
   delete_conversation id self w = Return (false, self) w)
  /\ ((exists conv, In conv (conversations self) /\ conversation_id conv = Some id) ->
      exists before target after,
        conversations self = before ++ target :: after
        /\ conversation_id target = Some id
        /\ (forall conv, In conv before -> conversation_id conv <> Some id)
        /\ let self' := mk_ChatBoard (before ++ after) (current_user self)
                                     (next_conversation_id self) in
           delete_conversation id self w
           = Return (true, self') (with_storage (ChatBoard_to_dict self') w)).
Proof.
  split.
  - intros H. apply delete_conversation_absent.
    apply Forall_forall. intros conv Hin. apply has_id_false. auto.
  - intros (conv & Hin & Hid).
    destruct (first_index id (conversations self) 0) as [j |] eqn:E.
    + destruct (first_index_some _ _ _ _ E) as (b & t & a & Hl & Ht & Hb & _).
      exists b, t, a. split; [exact Hl |]. split; [apply has_id_true; exact Ht |].
      split.
      * intros c Hc. apply has_id_false.
        rewrite Forall_forall in Hb. auto.
      * apply (delete_conversation_present id self w b a t); assumption.
    + apply first_index_none in E. rewrite Forall_forall in E.
      apply E in Hin. apply has_id_false in Hin. contradiction.
Qed.

Lemma delete_conversation_removes_exactly_witness :
  delete_conversation 7 (lunch_board None) fresh_world
  = Return (false, lunch_board None) fresh_world
  /\ exists w', delete_conversation 1 (lunch_board None) fresh_world
                = Return (true, mk_ChatBoard [] None 2) w'.
Proof.
  destruct (delete_conversation_removes_exactly 7 (lunch_board None) fresh_world)
    as [Habsent _].
  destruct (delete_conversation_removes_exactly 1 (lunch_board None) fresh_world)
    as [_ Hpresent].
  split.
  - apply Habsent. simpl. intros conv [<- | []]. simpl. discriminate.
  - destruct Hpresent as (before & target & after & Hl & _ & _ & Hdel).
    + exists lunch. simpl. split; [left; reflexivity | reflexivity].
    + destruct before as [| c before'].
      * simpl in Hl. injection Hl as <- <-. eexists. exact Hdel.
      * simpl in Hl. injection Hl as _ Hl. destruct before'; discriminate Hl.
Defined.

(** ** Creating *)

(** C6.  [create_conversation title] always returns.  The conversation it
    returns carries the given title, the id [next_conversation_id] held at
    the call, the clock reading of the call and no message; it is appended
    at the end of [conversations], the counter grows by one, the user is
    left alone and the new state is written to the file. *)
Theorem create_conversation_allocates (t : string) (self : ChatBoard) (w : World) :
  exists conv self' w',
    create_conversation t self w = Return (conv, self') w'
    /\ title conv = t
    /\ conversation_id conv = Some (next_conversation_id self)
    /\ messages conv = []
    /\ created_at conv = strftime (clock w (ticks w))
    /\ conversations self' = conversations self ++ [conv]
    /\ next_conversation_id self' = (next_conversation_id self + 1)%Z
    /\ current_user self' = current_user self
    /\ w' = with_storage (ChatBoard_to_dict self') (with_tick w).
Proof.
  eexists _, _, _. split; [apply create_conversation_eq |].
  simpl. repeat split.
Qed.

(** ** Identifier allocation *)

Ltac unfold_methods :=
  unfold exec, set_username, create_conversation, delete_conversation,
         post_message, Message_init, Conversation_init, save_data, now,
         bind, ret;
  simpl.

(** One command: it returns, and the counter moves exactly when a
    conversation is created, which then carries the old counter. *)
Lemma exec_counter (cmd : command) (self : ChatBoard) (w : World) :
  exists r self' w',
    exec cmd self w = Return (r, self') w'
    /\ match r with
       | Created conv =>
           conversation_id conv = Some (next_conversation_id self)
           /\ next_conversation_id self' = (next_conversation_id self + 1)%Z
       | _ => next_conversation_id self' = next_conversation_id self
       end.
Proof.
  destruct cmd as [u | t | id | | id | id c]; unfold_methods.
  - eexists _, _, _. split; reflexivity.
  - eexists _, _, _. split; [reflexivity | split; reflexivity].
  - eexists _, _, _. split; reflexivity.
  - eexists _, _, _. split; reflexivity.
  - destruct (first_index id (conversations self) 0);
      eexists _, _, _; split; reflexivity.
  - destruct (get_conversation id self), (active_user self);
      eexists _, _, _; split; reflexivity.
Qed.

Lemma run_cons (cmd : command) (rest : list command) (self self1 self2 : ChatBoard)
      (w w1 w2 : World) (r : response) (rs : list response) :
  exec cmd self w = Return (r, self1) w1 ->
  run rest self1 w1 = Return (rs, self2) w2 ->
  run (cmd :: rest) self w = Return (r :: rs, self2) w2.
Proof.
  intros He Hr. simpl. unfold bind. rewrite He. simpl. rewrite Hr. reflexivity.
Qed.

(** A run returns; the ids it hands out are strictly increasing and lie
    between the counter before and the counter after. *)
Lemma run_issues_fresh_ids (cmds : list command) :
  forall (self : ChatBoard) (w : World),
  exists rs self' w' ids,
    run cmds self w = Return (rs, self') w'
    /\ map conversation_id (created rs) = map Some ids
    /\ StronglySorted Z.lt ids
    /\ Forall (fun id => next_conversation_id self <= id < next_conversation_id self')%Z ids
    /\ (next_conversation_id self <= next_conversation_id self')%Z.
Proof.
  induction cmds as [| cmd rest IH]; intros self w.
  - exists [], self, w, []. simpl. repeat split; try constructor. lia.
  - destruct (exec_counter cmd self w) as (r & self1 & w1 & He & Hr).
    destruct (IH self1 w1) as (rs & self2 & w2 & ids & Hrun & Hids & Hsorted & Hbound & Hle).
    assert (Hweak : Forall (fun id => next_conversation_id self1 <= id)%Z ids).
    { eapply Forall_impl; [| exact Hbound]. simpl. intros; lia. }
    destruct r as [| conv | found | convs | ok | ok].
    2: { destruct Hr as [Hid Hnext].
         exists (Created conv :: rs), self2, w2, (next_conversation_id self :: ids).
         split; [exact (run_cons _ _ _ _ _ _ _ _ _ _ He Hrun) |]. simpl.
         rewrite Hid, Hids. split; [reflexivity |]. split.
         - constructor; [exact Hsorted |].
           eapply Forall_impl; [| exact Hweak]. simpl. intros; lia.
         - split; [| lia]. constructor; [lia |].
           eapply Forall_impl; [| exact Hbound]. simpl. intros; lia. }
    all: eexists (_ :: rs), self2, w2, ids;
      (split; [exact (run_cons _ _ _ _ _ _ _ _ _ _ He Hrun) |]); simpl;
      rewrite Hr in *; repeat split; assumption.
Qed.

Lemma StronglySorted_lt_NoDup (ids : list Z) :
  StronglySorted Z.lt ids -> NoDup ids.
Proof.
  induction 1 as [| id rest Hsorted IH Hall]; constructor.
  - intros Hin. rewrite Forall_forall in Hall. apply Hall in Hin. lia.
  - exact IH.
Qed.

(** C1.  Whatever commands are run on a store, creations interleaved with
    deletions and anything else: the run returns, every conversation handed
    out by [create_conversation] carries an id, these ids are strictly
    increasing in the order of the calls, none occurs twice, and
    [next_conversation_id] after the run is strictly greater than each of
    them.  Since the commands are arbitrary this holds at every point of a
    session. *)
Theorem issued_ids_strictly_increasing (cmds : list command) (self : ChatBoard)
        (w : World) :
  exists rs self' w' ids,
    run cmds self w = Return (rs, self') w'
    /\ map conversation_id (created rs) = map Some ids
    /\ StronglySorted Z.lt ids
    /\ NoDup ids
    /\ Forall (fun id => (id < next_conversation_id self')%Z) ids.
Proof.
  destruct (run_issues_fresh_ids cmds self w)
    as (rs & self' & w' & ids & Hrun & Hids & Hsorted & Hbound & _).
  exists rs, self', w', ids.
  split; [exact Hrun |]. split; [exact Hids |]. split; [exact Hsorted |].
  split; [apply StronglySorted_lt_NoDup; exact Hsorted |].
  eapply Forall_impl; [| exact Hbound]. simpl. intros; lia.
Qed.

(** ** Posting *)

Lemma get_conversation_some (id : Z) (self : ChatBoard) :
  (exists conv, get_conversation id self = Some conv)
  <-> (exists conv, In conv (conversations self) /\ conversation_id conv = Some id).
Proof.
  unfold get_conversation. split.
  - intros [conv H]. apply find_some in H as [Hin Hid].
    exists conv. split; [exact Hin | apply has_id_true; exact Hid].
  - intros (conv & Hin & Hid).
    destruct (find (has_id id) (conversations self)) as [c |] eqn:E.
    + exists c. reflexivity.
    + apply (find_none _ _ E) in Hin. apply has_id_true in Hid. congruence.
Qed.

Lemma active_user_some (self : ChatBoard) :
  (exists user, active_user self = Some user)
  <-> (exists user, current_user self = Some user /\ user <> "").
Proof.
  unfold active_user. destruct (current_user self) as [u |].
  - destruct (String.eqb_spec u "") as [-> | Hne].
    + split; [intros [x H]; discriminate |].
      intros (x & H & Hx). injection H as <-. contradiction.
    + split; intros _; exists u; [split |]; auto.
  - split; [intros [x H] | intros (x & H & _)]; discriminate.
Qed.

Lemma post_message_eq (id : Z) (c : string) (self : ChatBoard) (w : World) :
  post_message id c self w
  = match get_conversation id self, active_user self with
    | Some _, Some user =>
        let message := mk_Message user c (strftime (clock w (ticks w))) in
        let self' := mk_ChatBoard
                       (mutate_first id (fun conv => add_message conv message)
                                     (conversations self))
                       (current_user self) (next_conversation_id self) in
        Return (true, self') (with_storage (ChatBoard_to_dict self') (with_tick w))
    | _, _ => Return (false, self) w
    end.
Proof.
  unfold post_message.
  destruct (get_conversation id self), (active_user self); reflexivity.
Qed.

(** C2, as amended.  [post_message id content] always returns, and it
    answers [True] exactly when some conversation of the store carries the
    id and [current_user] holds a non-empty string.  When it answers
    [False] the store (so every message list) and the world are as they
    were. *)
Theorem post_message_succeeds_iff (id : Z) (c : string) (self : ChatBoard)
        (w : World) :
  exists ok self' w',
    post_message id c self w = Return (ok, self') w'
    /\ (ok = true <->
        (exists conv, In conv (conversations self) /\ conversation_id conv = Some id)
        /\ (exists user, current_user self = Some user /\ user <> ""))
    /\ (ok = false -> self' = self /\ w' = w).
Proof.
  rewrite post_message_eq.
  pose proof (get_conversation_some id self) as Hconv.
  pose proof (active_user_some self) as Huser.
  destruct (get_conversation id self) as [conv |];
    [destruct (active_user self) as [user |] |];
    eexists _, _, _; (split; [reflexivity |]); split.
  - split; [intros _ | reflexivity].
    split; [apply Hconv | apply Huser]; eexists; reflexivity.
  - discriminate.
  - split; [discriminate |]. intros [_ H]. apply Huser in H as [x H]. discriminate.
  - intros _. split; reflexivity.
  - split; [discriminate |]. intros [H _]. apply Hconv in H as [x H]. discriminate.
  - intros _. split; reflexivity.
Qed.

Lemma post_message_succeeds_iff_witness :
  exists self' w',
    post_message 1 "Where should we eat?" (lunch_board (Some "alice")) fresh_world
    = Return (true, self') w'.
Proof.
  destruct (post_message_succeeds_iff 1 "Where should we eat?"
              (lunch_board (Some "alice")) fresh_world)
    as (ok & self' & w' & Hpost & Hiff & _).
  assert (Hok : ok = true).
  { apply Hiff. split.
    - exists lunch. simpl. split; [left; reflexivity | reflexivity].
    - exists "alice". split; [reflexivity | discriminate]. }
  rewrite Hok in Hpost. exists self', w'. exact Hpost.
Defined.

(** C2 as stated fails: a conversation with the id exists and
    [current_user] is set (to the empty string, which [set_username]
    accepts), yet the answer is [False]. *)
Lemma post_message_set_but_empty_user :
  (exists conv, In conv (conversations (lunch_board (Some "")))
                /\ conversation_id conv = Some 1%Z)
  /\ current_user (lunch_board (Some "")) <> None
  /\ post_message 1 "hi" (lunch_board (Some "")) fresh_world
     = Return (false, lunch_board (Some "")) fresh_world.
Proof.
  split; [| split].
  - exists lunch. simpl. split; [left; reflexivity | reflexivity].
  - discriminate.
  - reflexivity.
Qed.

(** ** Ids held by the store *)

Lemma mutate_first_add_message_ids (id : Z) (m : Message) (P : option Z -> Prop)
      (l : list Conversation) :
  Forall (fun conv => P (conversation_id conv)) l ->
  Forall (fun conv => P (conversation_id conv))
         (mutate_first id (fun conv => add_message conv m) l).
Proof.
  induction 1 as [| conv rest Hconv Hrest IH]; simpl; [constructor |].
  destruct (has_id id conv); constructor; assumption.
Qed.

Lemma Forall_pop {P : Conversation -> Prop} (l : list Conversation) :
  Forall P l -> forall i : nat, Forall P (pop i l).
Proof.
  induction 1 as [| conv rest Hconv Hrest IH]; intros i.
  - destruct i; constructor.
  - destruct i as [| i]; [exact Hrest |].
    change (pop (S i) (conv :: rest)) with (conv :: pop i rest).
    constructor; [exact Hconv | apply IH].
Qed.

(** The ids in the store stay below the counter under every command, so
    an id handed out later differs from every id the store still holds. *)
Lemma exec_ids_below_counter (cmd : command) (self self' : ChatBoard)
      (w w' : World) (r : response) :
  ids_below_counter self ->
  exec cmd self w = Return (r, self') w' ->
  ids_below_counter self'.
Proof.
  unfold ids_below_counter. intros Hinv.
  destruct cmd as [u | t | id | | id | id c]; unfold exec, bind.
  - intros H. injection H as _ <- _. exact Hinv.
  - rewrite create_conversation_eq. intros H. injection H as _ <- _. simpl.
    apply Forall_app. split.
    + eapply Forall_impl; [| exact Hinv]. simpl.
      intros conv (n & Hn & Hlt). exists n. split; [exact Hn | lia].
    + constructor; [| constructor]. simpl.
      exists (next_conversation_id self). split; [reflexivity | lia].
  - intros H. injection H as _ <- _. exact Hinv.
  - intros H. injection H as _ <- _. exact Hinv.
  - unfold delete_conversation.
    destruct (first_index id (conversations self) 0) as [i |];
      intros H; injection H as _ <- _; [| exact Hinv].
    simpl. apply Forall_pop. exact Hinv.
  - rewrite post_message_eq.
    destruct (get_conversation id self), (active_user self);
      intros H; injection H as _ <- _; try exact Hinv.
    simpl.
    apply (mutate_first_add_message_ids id _
             (fun i => exists n, i = Some n /\ (n < next_conversation_id self)%Z)).
    exact Hinv.
Qed.

(** ** The empty username *)

(** With [current_user] unset or empty, a command other than
    [set_username] does the same to the store and to the world in both
    cases, keeps the user, and never posts. *)
Lemma exec_without_user (cmd : command) (self : ChatBoard) (w : World) :
  is_set_username cmd = false ->
  exists r self' w',
    (forall u, u = None \/ u = Some "" ->
               exec cmd (with_user u self) w = Return (r, with_user u self') w')
    /\ (forall ok, r = Posted ok -> ok = false).
Proof.
  destruct cmd as [u | t | id | | id | id c]; intros Hcmd; try discriminate Hcmd.
  - pose (conv := mk_Conversation t (Some (next_conversation_id self))
                                  (strftime (clock w (ticks w))) []).
    pose (self' := mk_ChatBoard (conversations self ++ [conv]) None
                                (next_conversation_id self + 1)).
    exists (Created conv), self',
           (with_storage (ChatBoard_to_dict self') (with_tick w)).
    split; [intros u _; reflexivity | discriminate].
  - exists (Found (get_conversation id self)), self, w.
    split; [intros u _; reflexivity | discriminate].
  - exists (Listing (conversations self)), self, w.
    split; [intros u _; reflexivity | discriminate].
  - unfold exec, bind, delete_conversation, with_user. simpl.
    destruct (first_index id (conversations self) 0) as [i |].
    + pose (self' := mk_ChatBoard (pop i (conversations self)) None
                                  (next_conversation_id self)).
      exists (Deleted true), self', (with_storage (ChatBoard_to_dict self') w).
      split; [intros u _; reflexivity | discriminate].
    + exists (Deleted false), self, w.
      split; [intros u _; reflexivity | discriminate].
  - exists (Posted false), self, w. split.
    + intros u Hu. unfold exec, bind. rewrite post_message_eq.
      unfold get_conversation, active_user, with_user. simpl.
      destruct (find (has_id id) (conversations self));
        destruct Hu as [-> | ->]; reflexivity.
    + intros ok H. injection H as <-. reflexivity.
Qed.

Lemma run_without_user (cmds : list command) :
  forall (self : ChatBoard) (w : World),
  forallb (fun cmd => negb (is_set_username cmd)) cmds = true ->
  exists rs self' w',
    (forall u, u = None \/ u = Some "" ->
               run cmds (with_user u self) w = Return (rs, with_user u self') w')
    /\ Forall (fun ok => ok = false) (posted rs).
Proof.
  induction cmds as [| cmd rest IH]; intros self w Hcmds.
  - exists [], self, w. split; [intros u _; reflexivity | constructor].
  - simpl in Hcmds. apply andb_true_iff in Hcmds as [Hcmd Hrest].
    apply negb_true_iff in Hcmd.
    destruct (exec_without_user cmd self w Hcmd) as (r & self1 & w1 & He & Hr).
    destruct (IH self1 w1 Hrest) as (rs & self2 & w2 & Hrun & Hposted).
    exists (r :: rs), self2, w2. split.
    + intros u Hu. exact (run_cons _ _ _ _ _ _ _ _ _ _ (He u Hu) (Hrun u Hu)).
    + destruct r; simpl; try exact Hposted.
      constructor; [apply Hr; reflexivity | exact Hposted].
Qed.

(** C9.  [set_username ""] returns and leaves the empty string in
    [current_user].  From then on, as long as no other username is set,
    every [post_message] answers [False], whether or not its conversation
    exists; and the run gives the same answers, the same conversations and
    counter and the same world as it does on the store with [current_user]
    unset. *)
Theorem empty_username_blocks_posting (cmds : list command) (self : ChatBoard)
        (w : World) :
  forallb (fun cmd => negb (is_set_username cmd)) cmds = true ->
  exists self1 rs self' w',
    set_username "" self w = Return self1 w
    /\ current_user self1 = Some ""
    /\ run cmds self1 w = Return (rs, self') w'
    /\ current_user self' = Some ""
    /\ Forall (fun ok => ok = false) (posted rs)
    /\ run cmds (with_user None self) w = Return (rs, with_user None self') w'.
Proof.
  intros Hcmds.
  destruct (run_without_user cmds self w Hcmds) as (rs & self' & w' & Hrun & Hposted).
  exists (with_user (Some "") self), rs, (with_user (Some "") self'), w'.
  split; [reflexivity |]. split; [reflexivity |].
  split; [apply Hrun; right; reflexivity |]. split; [reflexivity |].
  split; [exact Hposted |]. apply Hrun. left. reflexivity.
Qed.

Lemma empty_username_blocks_posting_witness :
  exists self1 rs self' w',
    set_username "" (lunch_board (Some "alice")) fresh_world
    = Return self1 fresh_world
    /\ run [PostMessage 1 "hi"; CreateConversation "Again"; PostMessage 2 "hi"]
           self1 fresh_world
       = Return (rs, self') w'
    /\ Forall (fun ok => ok = false) (posted rs).
Proof.
  destruct (empty_username_blocks_posting
              [PostMessage 1 "hi"; CreateConversation "Again"; PostMessage 2 "hi"]
              (lunch_board (Some "alice")) fresh_world eq_refl)
    as (self1 & rs & self' & w' & Hset & _ & Hrun & _ & Hposted & _).
  exists self1, rs, self', w'. split; [exact Hset |]. split; assumption.
Defined.

(** ** Persisting *)

(** C4, as amended.  Every command returns.  A command that changes
    [conversations] or [next_conversation_id] has dumped the resulting
    state to the file when it returns; these are the creations, the
    deletions that remove and the posts that succeed.  [set_username]
    changes [current_user] only, which is no part of the dumped state, and
    writes nothing; every other command leaves the store and the world as
    they were. *)
Theorem stored_part_mutations_persist (cmd : command) (self : ChatBoard) (w : World) :
  exists r self' w',
    exec cmd self w = Return (r, self') w'
    /\ (stored_part self' <> stored_part self -> persisted_by self' w w')
    /\ match r with
       | Created _ | Deleted true | Posted true => persisted_by self' w w'
       | Done => stored_part self' = stored_part self /\ w' = w
       | Found _ | Listing _ | Deleted false | Posted false => self' = self /\ w' = w
       end.
Proof.
  assert (Hsame : forall (self' : ChatBoard) (w' : World),
             stored_part self' = stored_part self ->
             stored_part self' <> stored_part self -> persisted_by self' w w')
    by (intros self' w' Heq Hne; contradiction).
  destruct cmd as [u | t | id | | id | id c]; unfold exec, bind.
  - eexists _, _, _. split; [reflexivity |].
    split; [apply Hsame; reflexivity | split; reflexivity].
  - rewrite create_conversation_eq. eexists _, _, _.
    split; [reflexivity |]. split; [intros _ |]; split; reflexivity.
  - eexists _, _, _. split; [reflexivity |].
    split; [apply Hsame; reflexivity | split; reflexivity].
  - eexists _, _, _. split; [reflexivity |].
    split; [apply Hsame; reflexivity | split; reflexivity].
  - unfold delete_conversation.
    destruct (first_index id (conversations self) 0) as [i |];
      eexists _, _, _; (split; [reflexivity |]).
    + split; [intros _ |]; split; reflexivity.
    + split; [apply Hsame; reflexivity | split; reflexivity].
  - rewrite post_message_eq.
    destruct (get_conversation id self), (active_user self);
      eexists _, _, _; (split; [reflexivity |]).
    + split; [intros _ |]; split; reflexivity.
    + split; [apply Hsame; reflexivity | split; reflexivity].
    + split; [apply Hsame; reflexivity | split; reflexivity].
    + split; [apply Hsame; reflexivity | split; reflexivity].
Qed.

Lemma stored_part_mutations_persist_witness :
  exists self' w',
    exec (CreateConversation "Lunch plans") empty_board fresh_world
    = Return (Created lunch, self') w'
    /\ persisted_by self' fresh_world w'.
Proof.
  destruct (stored_part_mutations_persist
              (CreateConversation "Lunch plans") empty_board fresh_world)
    as (r & self' & w' & Hexec & Hpersist & _).
  vm_compute in Hexec. injection Hexec as <- <- <-.
  eexists _, _. split; [vm_compute; reflexivity |].
  apply Hpersist. vm_compute. discriminate.
Defined.

(** C4 as stated fails on [set_username]: the store changes and the file
    is neither created nor written. *)
Lemma set_username_does_not_persist :
  exists self',
    set_username "alice" empty_board fresh_world = Return self' fresh_world
    /\ self' <> empty_board
    /\ storage fresh_world = None
    /\ written fresh_world = [].
Proof.
  eexists. split; [reflexivity |].
  split; [discriminate |]. split; reflexivity.
Qed.

(** ** Loading *)

Lemma bind_Raise {A B} (c : M A) (k : A -> M B) (w w' : World) (e : exn) :
  bind c k w = Raise e w' ->
  c w = Raise e w' \/ exists a w1, c w = Return a w1 /\ k a w1 = Raise e w'.
Proof.
  unfold bind. destruct (c w) as [a w1 | e1 w1]; intros H.
  - right. exists a, w1. split; [reflexivity | exact H].
  - left. injection H as -> ->. reflexivity.
Qed.

Ltac invert_bind H :=
  let a := fresh "a" in
  let w1 := fresh "w" in
  let H1 := fresh H in
  apply bind_Return in H; destruct H as (a & w1 & H1 & H).

Lemma mapM_Return_Forall {A B} (f : A -> M B) (P : B -> Prop) :
  (forall x w b w', f x w = Return b w' -> P b) ->
  forall l w bs w', mapM f l w = Return bs w' -> Forall P bs.
Proof.
  intros Hf. induction l as [| x rest IH]; intros w bs w' H; simpl in H.
  - injection H as <- _. constructor.
  - invert_bind H. invert_bind H. injection H as <- _.
    constructor; [eapply Hf; eassumption | eapply IH; eassumption].
Qed.

Lemma mapM_Raise {A B} (f : A -> M B) (P : exn -> Prop) :
  (forall x w e w', f x w = Raise e w' -> P e) ->
  forall l w e w', mapM f l w = Raise e w' -> P e.
Proof.
  intros Hf. induction l as [| x rest IH]; intros w e w' H; simpl in H.
  - discriminate H.
  - apply bind_Raise in H as [H | (b & w1 & _ & H)]; [eapply Hf; eassumption |].
    apply bind_Raise in H as [H | (bs & w2 & _ & H)]; [eapply IH; eassumption |].
    discriminate H.
Qed.

Lemma getitem_Raise (data : json) (key : string) (w w' : World) (e : exn) :
  getitem data key w = Raise e w' -> walk_error e = true.
Proof.
  unfold getitem, raise, ret.
  destruct data; try (intros H; injection H as <- _; reflexivity).
  destruct (dict_lookup key fields); intros H;
    [discriminate H | injection H as <- _; reflexivity].
Qed.

Lemma iterate_Raise (data : json) (w w' : World) (e : exn) :
  iterate data w = Raise e w' -> walk_error e = true.
Proof.
  unfold iterate, raise, ret.
  destruct data; intros H; try discriminate H; injection H as <- _; reflexivity.
Qed.

Lemma Message_from_dict_Raise (data : json) (w w' : World) (e : exn) :
  Message_from_dict data w = Raise e w' -> walk_error e = true.
Proof.
  unfold Message_from_dict. intros H.
  apply bind_Raise in H as [H | (a & w1 & _ & H)]; [eapply getitem_Raise; eassumption |].
  apply bind_Raise in H as [H | (c & w2 & _ & H)]; [eapply getitem_Raise; eassumption |].
  apply bind_Raise in H as [H | (t & w3 & _ & H)]; [eapply getitem_Raise; eassumption |].
  unfold Message_init_loaded in H. destruct (truthy t); discriminate H.
Qed.

Lemma Conversation_from_dict_Raise (data : json) (w w' : World) (e : exn) :
  Conversation_from_dict data w = Raise e w' -> walk_error e = true.
Proof.
  unfold Conversation_from_dict. intros H.
  apply bind_Raise in H as [H | (t & w1 & _ & H)]; [eapply getitem_Raise; eassumption |].
  apply bind_Raise in H as [H | (id & w2 & _ & H)]; [eapply getitem_Raise; eassumption |].
  apply bind_Raise in H as [H | (s & w3 & _ & H)]; [discriminate H |].
  apply bind_Raise in H as [H | (c & w4 & _ & H)]; [eapply getitem_Raise; eassumption |].
  apply bind_Raise in H as [H | (raw & w5 & _ & H)]; [eapply getitem_Raise; eassumption |].
  apply bind_Raise in H as [H | (items & w6 & _ & H)]; [eapply iterate_Raise; eassumption |].
  apply bind_Raise in H as [H | (msgs & w7 & _ & H)]; [| discriminate H].
  eapply (mapM_Raise Message_from_dict (fun e => walk_error e = true)); [| exact H].
  intros x wx ex wx'. apply Message_from_dict_Raise.
Qed.

Lemma Message_from_dict_timestamp (data : json) (w w' : World) (m : LoadedMessage) :
  Message_from_dict data w = Return m w' -> truthy (loaded_timestamp m) = true.
Proof.
  unfold Message_from_dict. intros H.
  invert_bind H. invert_bind H. invert_bind H.
  unfold Message_init_loaded in H. destruct (truthy a1) eqn:E.
  - injection H as <- _. exact E.
  - invert_bind H. injection H as <- _. simpl.
    unfold now in H3. injection H3 as <- _.
    apply negb_true_iff. apply String.eqb_neq. apply strftime_nonempty.
Qed.

Lemma Conversation_from_dict_timestamps (data : json) (w w' : World)
      (conv : LoadedConversation) :
  Conversation_from_dict data w = Return conv w' ->
  Forall (fun m => truthy (loaded_timestamp m) = true) (loaded_messages conv).
Proof.
  unfold Conversation_from_dict. intros H.
  do 7 invert_bind H. injection H as <- _. simpl.
  eapply mapM_Return_Forall; [| eassumption].
  intros x wx b wx'. apply Message_from_dict_timestamp.
Qed.

(** What [load_data] can do: return with the user untouched and every
    loaded message timed, or let an exception escape, which is then a
    [TypeError] or an [AttributeError] coming from a file that parses. *)
Lemma load_data_outcome (self : LoadedBoard) (w : World) :
  match load_data self w with
  | Return self' w' =>
      loaded_current_user self' = loaded_current_user self
      /\ (loaded_timestamps_set self -> loaded_timestamps_set self')
  | Raise e w' =>
      (e = TypeError \/ e = AttributeError)
      /\ exists doc, storage w = Some (Document doc)
  end.
Proof.
  unfold load_data. destruct (storage w) as [c |] eqn:Hc.
  2: { split; [reflexivity | auto]. }
  unfold try_except.
  match goal with |- context [match ?body w with _ => _ end] =>
    destruct (body w) as [self' w' | e w'] eqn:Hbody end.
  - do 5 invert_bind Hbody. injection Hbody as <- _.
    split; [reflexivity |]. intros _. unfold loaded_timestamps_set. simpl.
    eapply mapM_Return_Forall; [| eassumption].
    intros x wx conv wx'. apply Conversation_from_dict_timestamps.
  - destruct (caught_by_load_data e) eqn:Hcaught.
    + simpl. split; [reflexivity |]. intros _. constructor.
    + split; [destruct e; try discriminate Hcaught; auto |].
      destruct c as [| doc]; [| exists doc; reflexivity].
      injection Hbody as <- _. discriminate Hcaught.
Qed.

Lemma ChatBoard_init_absent (w : World) :
  storage w = None ->
  ChatBoard_init w = Return (mk_LoadedBoard [] None (JInt 1)) w.
Proof. intros H. unfold ChatBoard_init, load_data. rewrite H. reflexivity. Qed.

(** A file that is no JSON at all is reported and replaced by the defaults. *)
Lemma ChatBoard_init_unparsable (w : World) :
  storage w = Some Unparsable ->
  ChatBoard_init w
  = Return (mk_LoadedBoard [] None (JInt 1)) (with_console JSONDecodeError w).
Proof. intros H. unfold ChatBoard_init, load_data. rewrite H. reflexivity. Qed.

(** C7, at the inputs where the code departs from it.  A file holding the
    JSON text [[]] makes the constructor raise [AttributeError], and a file
    holding [{"conversations": [1]}] makes it raise [TypeError]: both get
    past the handler of [load_data], no store is built, no warning is
    printed. *)
Theorem load_data_raises_on_malformed_structure :
  ChatBoard_init (world_with (Document (JArr [])))
  = Raise AttributeError (world_with (Document (JArr [])))
  /\ ChatBoard_init (world_with (Document (JObj [("conversations", JArr [JInt 1])])))
     = Raise TypeError (world_with (Document (JObj [("conversations", JArr [JInt 1])]))).
Proof. split; reflexivity. Qed.

(** A conversation record without its [messages] is the kind of damage the
    handler does cover: warning, empty list, default counter. *)
Example load_data_recovers_from_missing_key :
  exists w',
    ChatBoard_init
      (world_with (Document (JObj [("conversations",
                                    JArr [JObj [("title", JStr "t");
                                                ("conversation_id", JInt 4);
                                                ("created_at", JStr "c")]]);
                                   ("next_conversation_id", JInt 5)])))
    = Return (mk_LoadedBoard [] None (JInt 1)) w'
    /\ console w' = [KeyError "messages"].
Proof. eexists. split; reflexivity. Qed.

(** ** What the file holds, and what a new store starts with *)

(** A user recorded in the file by other means is not read back. *)
Example stored_username_is_ignored :
  ChatBoard_init
    (world_with (Document (JObj [("conversations", JArr []);
                                 ("next_conversation_id", JInt 3);
                                 ("current_user", JStr "bob")])))
  = Return (mk_LoadedBoard [] None (JInt 3))
           (world_with (Document (JObj [("conversations", JArr []);
                                        ("next_conversation_id", JInt 3);
                                        ("current_user", JStr "bob")]))).
Proof. reflexivity. Qed.

(** C10.  [save_data] returns and leaves in the file a document with
    exactly the two fields [conversations] and [next_conversation_id]; the
    document is the same whatever [current_user] is.  And whatever the
    world holds, the constructor either builds a store whose
    [current_user] is unset, or raises and builds none (which takes a file
    that parses). *)
Theorem current_user_never_persisted :
  (forall (self : ChatBoard) (w : World),
      exists w',
        save_data self w = Return tt w'
        /\ storage w'
           = Some (Document
                     (JObj [("conversations",
                             JArr (map Conversation_to_dict (conversations self)));
                            ("next_conversation_id",
                             JInt (next_conversation_id self))])))
  /\ (forall (u : option string) (self : ChatBoard) (w : World),
         save_data (with_user u self) w = save_data self w)
  /\ (forall w : World,
         (exists self w',
             ChatBoard_init w = Return self w' /\ loaded_current_user self = None)
         \/ (exists e w' doc,
                ChatBoard_init w = Raise e w'
                /\ storage w = Some (Document doc))).
Proof.
  split; [| split].
  - intros self w. eexists. split; reflexivity.
  - intros u self w. reflexivity.
  - intros w. unfold ChatBoard_init.
    pose proof (load_data_outcome (mk_LoadedBoard [] None (JInt 1)) w) as H.
    destruct (load_data (mk_LoadedBoard [] None (JInt 1)) w) as [self w' | e w'].
    + left. exists self, w'. split; [reflexivity | apply H].
    + right. destruct H as [_ [doc Hdoc]]. exists e, w', doc.
      split; [reflexivity | exact Hdoc].
Qed.

(** ** Defaults *)

(** [load_data] on a file holding an object, with the two [.get] done. *)
Lemma load_data_object (self : LoadedBoard) (w : World) (fields : list (string * json)) :
  storage w = Some (Document (JObj fields)) ->
  load_data self w
  = try_except
      (items <- iterate (entry_or "conversations" (JArr []) fields) ;;
       convs <- mapM Conversation_from_dict items ;;
       ret (mk_LoadedBoard convs (loaded_current_user self)
                           (entry_or "next_conversation_id" (JInt 1) fields)))
      (fun e =>
         print_warning e ;;;
         ret (mk_LoadedBoard [] (loaded_current_user self)
                             (loaded_next_conversation_id self)))
      w.
Proof.
  intros H. unfold load_data. rewrite H.
  unfold try_except, bind, json_load, get_default, entry_or, ret.
  destruct (dict_lookup "conversations" fields) as [raw |];
    (match goal with |- context [iterate ?x w] => destruct (iterate x w) as [items w1 | e w1] end;
     [| reflexivity]);
    (destruct (mapM Conversation_from_dict items w1) as [convs w2 | e w2];
     [| reflexivity]);
    destruct (dict_lookup "next_conversation_id" fields); reflexivity.
Qed.

(** ** Loading well-formed documents *)

Lemma Message_from_dict_to_dict (m : Message) (w : World) :
  timestamp m <> "" ->
  Message_from_dict (Message_to_dict m) w = Return (loaded_of_message m) w.
Proof.
  intros Ht. unfold Message_from_dict, Message_to_dict, Message_init_loaded,
                    getitem, bind, ret.
  simpl. apply String.eqb_neq in Ht. rewrite Ht. reflexivity.
Qed.

Lemma mapM_Message_from_dict (msgs : list Message) (w : World) :
  Forall (fun m => timestamp m <> "") msgs ->
  mapM Message_from_dict (map Message_to_dict msgs) w
  = Return (map loaded_of_message msgs) w.
Proof.
  induction 1 as [| m rest Hm Hrest IH]; simpl; [reflexivity |].
  unfold bind. rewrite (Message_from_dict_to_dict m w Hm), IH. reflexivity.
Qed.

Lemma Conversation_from_dict_to_dict (conv : Conversation) (w : World) :
  Forall (fun m => timestamp m <> "") (messages conv) ->
  Conversation_from_dict (Conversation_to_dict conv) w
  = Return (loaded_of_conversation conv) (with_tick w).
Proof.
  intros Hm. unfold Conversation_from_dict, Conversation_to_dict, getitem,
                    iterate, now, bind, ret.
  simpl. rewrite (mapM_Message_from_dict _ _ Hm). reflexivity.
Qed.

Lemma mapM_Conversation_from_dict (convs : list Conversation) :
  Forall (fun conv => Forall (fun m => timestamp m <> "") (messages conv)) convs ->
  forall w : World,
    mapM Conversation_from_dict (map Conversation_to_dict convs) w
    = Return (map loaded_of_conversation convs) (advance (List.length convs) w).
Proof.
  induction 1 as [| conv rest Hconv Hrest IH]; intros w; simpl; [reflexivity |].
  unfold bind. rewrite (Conversation_from_dict_to_dict conv w Hconv), IH.
  reflexivity.
Qed.

Lemma console_advance (n : nat) (w : World) :
  console (advance n w) = console w.
Proof. revert w. induction n as [| n IH]; intros w; simpl; [| rewrite IH]; reflexivity. Qed.

(** [load_data] on a file holding an object whose [conversations] entry
    (or its default) is a list of dumped conversations with timed
    messages: it returns them, with the counter the object gives or 1, and
    prints nothing. *)
Lemma load_data_well_formed (self : LoadedBoard) (w : World)
      (fields : list (string * json)) (convs : list Conversation) :
  storage w = Some (Document (JObj fields)) ->
  entry_or "conversations" (JArr []) fields
  = JArr (map Conversation_to_dict convs) ->
  Forall (fun conv => Forall (fun m => timestamp m <> "") (messages conv)) convs ->
  load_data self w
  = Return (mk_LoadedBoard (map loaded_of_conversation convs)
                           (loaded_current_user self)
                           (entry_or "next_conversation_id" (JInt 1) fields))
           (advance (List.length convs) w).
Proof.
  intros Hw Hconvs Hts. rewrite (load_data_object _ _ _ Hw), Hconvs.
  unfold try_except, bind, iterate, ret.
  rewrite (mapM_Conversation_from_dict _ Hts). reflexivity.
Qed.

(** C8.  With no file the constructor returns the empty store with counter
    1 and touches nothing.  With a file holding an object without the key
    [conversations] it returns a store with no conversation (and the
    counter the object gives, or 1).  With a file holding an object without
    the key [next_conversation_id], every store it builds has counter 1: it
    builds one with the conversations of the file when these are dumps of
    conversations with timed messages, and it builds none only when the
    [conversations] entry makes it raise [TypeError]. *)
Theorem load_data_defaults (w : World) :
  (storage w = None ->
   ChatBoard_init w = Return (loaded_of_board empty_board) w)
  /\ (forall fields,
         storage w = Some (Document (JObj fields)) ->
         dict_lookup "conversations" fields = None ->
         ChatBoard_init w
         = Return (mk_LoadedBoard [] None
                     (entry_or "next_conversation_id" (JInt 1) fields)) w)
  /\ (forall fields,
         storage w = Some (Document (JObj fields)) ->
         dict_lookup "next_conversation_id" fields = None ->
         (exists convs w',
             ChatBoard_init w = Return (mk_LoadedBoard convs None (JInt 1)) w')
         \/ (exists w', ChatBoard_init w = Raise TypeError w'))
  /\ (forall fields convs,
         storage w = Some (Document (JObj fields)) ->
         dict_lookup "next_conversation_id" fields = None ->
         dict_lookup "conversations" fields
         = Some (JArr (map Conversation_to_dict convs)) ->
         Forall (fun conv => Forall (fun m => timestamp m <> "") (messages conv))
                convs ->
         ChatBoard_init w
         = Return (loaded_of_board (mk_ChatBoard convs None 1))
                  (advance (List.length convs) w)).
Proof.
  split; [| split; [| split]].
  - apply ChatBoard_init_absent.
  - intros fields Hw Hconvs. unfold ChatBoard_init.
    apply (load_data_well_formed (mk_LoadedBoard [] None (JInt 1)) w fields []
                                 Hw); [| constructor].
    unfold entry_or. rewrite Hconvs. reflexivity.
  - intros fields Hw Hnext. unfold ChatBoard_init.
    rewrite (load_data_object _ _ _ Hw).
    assert (Hdefault : entry_or "next_conversation_id" (JInt 1) fields = JInt 1)
      by (unfold entry_or; rewrite Hnext; reflexivity).
    rewrite Hdefault. unfold try_except.
    match goal with |- context [match ?body w with _ => _ end] =>
      destruct (body w) as [self' w' | e w'] eqn:Hbody end.
    + left. do 2 invert_bind Hbody. injection Hbody as <- <-.
      eexists _, _. reflexivity.
    + destruct (caught_by_load_data e) eqn:Hcaught.
      * left. eexists _, _. reflexivity.
      * right. exists w'.
        assert (Hwalk : walk_error e = true).
        { apply bind_Raise in Hbody as [H | (items & w1 & _ & H)];
            [eapply iterate_Raise; eassumption |].
          apply bind_Raise in H as [H | (convs & w2 & _ & H)]; [| discriminate H].
          eapply (mapM_Raise Conversation_from_dict (fun e => walk_error e = true));
            [| exact H].
          intros x wx ex wx'. apply Conversation_from_dict_Raise. }
        destruct e; try discriminate Hcaught; try discriminate Hwalk. reflexivity.
  - intros fields convs Hw Hnext Hconvs Hts. unfold ChatBoard_init.
    rewrite (load_data_well_formed _ w fields convs Hw); [| | exact Hts].
    + unfold entry_or. rewrite Hnext. reflexivity.
    + unfold entry_or. rewrite Hconvs. reflexivity.
Qed.

Lemma load_data_defaults_witness :
  ChatBoard_init fresh_world = Return (loaded_of_board empty_board) fresh_world
  /\ ChatBoard_init (world_with (Document (JObj [("next_conversation_id", JInt 9)])))
     = Return (mk_LoadedBoard [] None (JInt 9))
              (world_with (Document (JObj [("next_conversation_id", JInt 9)])))
  /\ ((exists convs w',
          ChatBoard_init (world_with (Document (JObj [("conversations", JInt 5)])))
          = Return (mk_LoadedBoard convs None (JInt 1)) w')
      \/ (exists w',
             ChatBoard_init (world_with (Document (JObj [("conversations", JInt 5)])))
             = Raise TypeError w'))
  /\ ChatBoard_init
       (world_with (Document (JObj [("conversations",
                                     JArr (map Conversation_to_dict [lunch]))])))
     = Return (loaded_of_board (mk_ChatBoard [lunch] None 1))
              (advance 1
                 (world_with
                    (Document (JObj [("conversations",
                                      JArr (map Conversation_to_dict [lunch]))])))).
Proof.
  split; [| split; [| split]].
  - destruct (load_data_defaults fresh_world) as [H _]. apply H. reflexivity.
  - destruct (load_data_defaults
                (world_with (Document (JObj [("next_conversation_id", JInt 9)]))))
      as (_ & H & _).
    apply (H [("next_conversation_id", JInt 9)]); reflexivity.
  - destruct (load_data_defaults
                (world_with (Document (JObj [("conversations", JInt 5)]))))
      as (_ & _ & H & _).
    apply (H [("conversations", JInt 5)]); reflexivity.
  - destruct (load_data_defaults
                (world_with
                   (Document (JObj [("conversations",
                                     JArr (map Conversation_to_dict [lunch]))]))))
      as (_ & _ & _ & H).
    apply (H [("conversations", JArr (map Conversation_to_dict [lunch]))] [lunch]);
      try reflexivity.
    constructor; [constructor | constructor].
Defined.

(** ** Round trip through the file *)

(** *** Stores the program can be in carry timed messages *)

Lemma timestamps_set_mutate_first (id : Z) (m : Message) (l : list Conversation) :
  timestamp m <> "" ->
  Forall (fun conv => Forall (fun m => timestamp m <> "") (messages conv)) l ->
  Forall (fun conv => Forall (fun m => timestamp m <> "") (messages conv))
         (mutate_first id (fun conv => add_message conv m) l).
Proof.
  intros Hm. induction 1 as [| conv rest Hconv Hrest IH]; simpl; [constructor |].
  destruct (has_id id conv).
  - constructor; [| exact Hrest]. simpl. apply Forall_app. split; [exact Hconv |].
    constructor; [exact Hm | constructor].
  - constructor; assumption.
Qed.

Lemma exec_timestamps_set (cmd : command) (self self' : ChatBoard) (w w' : World)
      (r : response) :
  timestamps_set self ->
  exec cmd self w = Return (r, self') w' ->
  timestamps_set self'.
Proof.
  unfold timestamps_set. intros Hts.
  destruct cmd as [u | t | id | | id | id c]; unfold exec, bind.
  - intros H. injection H as _ <- _. exact Hts.
  - rewrite create_conversation_eq. intros H. injection H as _ <- _. simpl.
    apply Forall_app. split; [exact Hts |].
    constructor; [constructor | constructor].
  - intros H. injection H as _ <- _. exact Hts.
  - intros H. injection H as _ <- _. exact Hts.
  - unfold delete_conversation.
    destruct (first_index id (conversations self) 0) as [i |];
      intros H; injection H as _ <- _; [| exact Hts].
    simpl. apply Forall_pop. exact Hts.
  - rewrite post_message_eq.
    destruct (get_conversation id self), (active_user self);
      intros H; injection H as _ <- _; try exact Hts.
    simpl. apply timestamps_set_mutate_first; [apply strftime_nonempty | exact Hts].
Qed.

Lemma loaded_timestamps_set_typed (self : ChatBoard) :
  loaded_timestamps_set (loaded_of_board self) -> timestamps_set self.
Proof.
  unfold loaded_timestamps_set, timestamps_set. simpl.
  rewrite Forall_map. apply Forall_impl. intros conv. simpl.
  rewrite Forall_map. apply Forall_impl. intros m. simpl.
  intros H. apply negb_true_iff in H. apply String.eqb_neq. exact H.
Qed.

Lemma reachable_timestamps_set (self : ChatBoard) :
  reachable self -> timestamps_set self.
Proof.
  induction 1 as [w w' self Hinit | cmd self self' r w w' _ IH Hexec].
  - apply loaded_timestamps_set_typed. unfold ChatBoard_init in Hinit.
    pose proof (load_data_outcome (mk_LoadedBoard [] None (JInt 1)) w) as H.
    rewrite Hinit in H. apply H. constructor.
  - eapply exec_timestamps_set; eassumption.
Qed.

Lemma reachable_run (cmds : list command) :
  forall (self self' : ChatBoard) (w w' : World) (rs : list response),
    reachable self ->
    run cmds self w = Return (rs, self') w' ->
    reachable self'.
Proof.
  induction cmds as [| cmd rest IH]; intros self self' w w' rs Hreach Hrun;
    simpl in Hrun.
  - injection Hrun as _ <- _. exact Hreach.
  - invert_bind Hrun. invert_bind Hrun. injection Hrun as _ <- _.
    destruct a as [r self1]. destruct a0 as [rs' self2]. simpl in *.
    eapply IH; [| eassumption].
    eapply reachable_exec; eassumption.
Qed.

Lemma reachable_empty_board : reachable empty_board.
Proof. apply (reachable_init fresh_world fresh_world). reflexivity. Qed.

Lemma loaded_of_message_inj (m m' : Message) :
  loaded_of_message m = loaded_of_message m' -> m = m'.
Proof.
  destruct m, m'. unfold loaded_of_message. simpl.
  intros H. injection H as -> -> ->. reflexivity.
Qed.

Lemma map_inj {A B} (f : A -> B) :
  (forall x y, f x = f y -> x = y) ->
  forall l l', map f l = map f l' -> l = l'.
Proof.
  intros Hf. induction l as [| x rest IH]; intros [| y rest'] H;
    simpl in H; try discriminate H; [reflexivity |].
  injection H as Hx Hrest. f_equal; [apply Hf; exact Hx | apply IH; exact Hrest].
Qed.

Lemma loaded_of_conversation_inj (conv conv' : Conversation) :
  loaded_of_conversation conv = loaded_of_conversation conv' -> conv = conv'.
Proof.
  destruct conv as [t id c ms], conv' as [t' id' c' ms'].
  unfold loaded_of_conversation. simpl.
  intros H. injection H as -> Hid -> Hms.
  apply (map_inj _ loaded_of_message_inj) in Hms as ->.
  destruct id, id'; simpl in Hid; try discriminate Hid;
    [injection Hid as -> |]; reflexivity.
Qed.

(** Two stores that look the same to the loader are the same store. *)
Lemma loaded_of_board_inj (self self' : ChatBoard) :
  loaded_of_board self = loaded_of_board self' -> self = self'.
Proof.
  destruct self as [cs u n], self' as [cs' u' n'].
  unfold loaded_of_board. simpl.
  intros H. injection H as Hcs -> ->.
  apply (map_inj _ loaded_of_conversation_inj) in Hcs as ->. reflexivity.
Qed.

(** C3.  For every store the program can be in: [save_data] returns, and
    a constructor run on the file it leaves returns the store with the
    same list of conversations (ids, titles, creation times and messages
    with author, content and time, all in the same order) and the same
    [next_conversation_id]; only [current_user] is unset.  Calling
    [load_data] on the store itself after [save_data] gives the store
    back.  Nothing is reported on the console. *)
Theorem save_then_load_round_trip (self : ChatBoard) (w : World) :
  reachable self ->
  exists w1 w2,
    save_data self w = Return tt w1
    /\ ChatBoard_init w1
       = Return (loaded_of_board
                   (mk_ChatBoard (conversations self) None
                                 (next_conversation_id self)))
                w2
    /\ load_data (loaded_of_board self) w1 = Return (loaded_of_board self) w2
    /\ console w2 = console w1.
Proof.
  intros Hreach. apply reachable_timestamps_set in Hreach.
  exists (with_storage (ChatBoard_to_dict self) w),
         (advance (List.length (conversations self))
                  (with_storage (ChatBoard_to_dict self) w)).
  split; [reflexivity |].
  split; [| split; [| apply console_advance]].
  - unfold ChatBoard_init.
    rewrite (load_data_well_formed
               _ (with_storage (ChatBoard_to_dict self) w)
               [("conversations", JArr (map Conversation_to_dict (conversations self)));
                ("next_conversation_id", JInt (next_conversation_id self))]
               (conversations self) eq_refl eq_refl Hreach).
    reflexivity.
  - rewrite (load_data_well_formed
               _ (with_storage (ChatBoard_to_dict self) w)
               [("conversations", JArr (map Conversation_to_dict (conversations self)));
                ("next_conversation_id", JInt (next_conversation_id self))]
               (conversations self) eq_refl eq_refl Hreach).
    reflexivity.
Qed.

Lemma save_then_load_round_trip_witness :
  reachable posted_board
  /\ exists w1 w2,
      save_data posted_board fresh_world = Return tt w1
      /\ ChatBoard_init w1
         = Return (loaded_of_board
                     (mk_ChatBoard (conversations posted_board) None
                                   (next_conversation_id posted_board)))
                  w2
      /\ load_data (loaded_of_board posted_board) w1
         = Return (loaded_of_board posted_board) w2
      /\ console w2 = console w1.
Proof.
  assert (Hreach : reachable posted_board).
  { apply (reachable_run
             [CreateConversation "Lunch plans"; SetUsername "alice";
              PostMessage 1 "Where should we eat?"]
             empty_board posted_board fresh_world
             (advance 2 (with_storage (ChatBoard_to_dict posted_board)
                                      (with_storage
                                         (ChatBoard_to_dict (lunch_board None))
                                         fresh_world)))
             [Created lunch; Done; Posted true]).
    - exact reachable_empty_board.
    - vm_compute. reflexivity. }
  split; [exact Hreach |].
  exact (save_then_load_round_trip posted_board fresh_world Hreach).
Defined.

(** * Further properties of the store *)

(** ** Looking conversations up *)

Lemma find_app {A} (f : A -> bool) (l1 l2 : list A) :
  find f (l1 ++ l2)
  = match find f l1 with
    | Some x => Some x
    | None => find f l2
    end.
Proof.
  induction l1 as [| x rest IH]; simpl; [reflexivity |].
  destruct (f x); [reflexivity | exact IH].
Qed.

Lemma find_none_Forall {A} (f : A -> bool) (l : list A) :
  find f l = None <-> Forall (fun x => f x = false) l.
Proof.
  induction l as [| x rest IH]; simpl.
  - split; [constructor | reflexivity].
  - destruct (f x) eqn:E.
    + split; [discriminate |]. intros H. inversion H; congruence.
    + rewrite IH. split; intros H; [constructor; assumption | inversion H; assumption].
Qed.

Lemma has_id_other (id id' : Z) (conv : Conversation) :
  id' <> id -> has_id id conv = true -> has_id id' conv = false.
Proof.
  intros Hne H. apply has_id_true in H. apply has_id_false. congruence.
Qed.

(** The first conversation with an id, and what comes before it. *)
Lemma get_conversation_split (id : Z) (self : ChatBoard) (conv : Conversation) :
  get_conversation id self = Some conv ->
  exists before after,
    conversations self = before ++ conv :: after
    /\ has_id id conv = true
    /\ Forall (fun c => has_id id c = false) before.
Proof.
  unfold get_conversation. generalize (conversations self) as l.
  induction l as [| c rest IH]; simpl; [discriminate |].
  destruct (has_id id c) eqn:E; intros H.
  - injection H as <-. exists [], rest. repeat split; [exact E | constructor].
  - destruct (IH H) as (before & after & -> & Hc & Hb).
    exists (c :: before), after. repeat split; [exact Hc | constructor; assumption].
Qed.

Lemma find_first_match (id : Z) (before after : list Conversation)
      (conv : Conversation) :
  Forall (fun c => has_id id c = false) before ->
  has_id id conv = true ->
  find (has_id id) (before ++ conv :: after) = Some conv.
Proof.
  intros Hb Hc. rewrite find_app.
  apply find_none_Forall in Hb. rewrite Hb. simpl. rewrite Hc. reflexivity.
Qed.

(** X1.  After [create_conversation], looking an id up gives what it gave
    before when that was a conversation; otherwise it gives the new
    conversation for the id just handed out, and nothing for any other id.
    So the new conversation is found under its id exactly when no older
    conversation carries that id, and no other lookup changes. *)
Theorem get_conversation_after_create (t : string) (self : ChatBoard) (w : World) :
  exists conv self' w',
    create_conversation t self w = Return (conv, self') w'
    /\ forall id,
         get_conversation id self'
         = match get_conversation id self with
           | Some old => Some old
           | None => if Z.eqb id (next_conversation_id self) then Some conv else None
           end.
Proof.
  eexists _, _, _. split; [apply create_conversation_eq |].
  intros id. unfold get_conversation. simpl. rewrite find_app.
  destruct (find (has_id id) (conversations self)); [reflexivity |].
  simpl. unfold has_id. simpl. rewrite Z.eqb_sym.
  destruct (Z.eqb id (next_conversation_id self)); reflexivity.
Qed.

Lemma well_numbered_NoDup (self : ChatBoard) :
  well_numbered self -> NoDup (store_ids self).
Proof.
  intros (ids & Hids & Hsorted & _). rewrite Hids.
  apply NoDup_map_NoDup_ForallPairs.
  - intros x y _ _ H. injection H as ->. reflexivity.
  - apply StronglySorted_lt_NoDup. exact Hsorted.
Qed.

Lemma well_numbered_unique (self : ChatBoard) (id : Z)
      (before after : list Conversation) (target : Conversation) :
  well_numbered self ->
  conversations self = before ++ target :: after ->
  has_id id target = true ->
  Forall (fun c => has_id id c = false) (before ++ after).
Proof.
  intros Hwn Hl Ht. apply well_numbered_NoDup in Hwn.
  unfold store_ids in Hwn. rewrite Hl, map_app in Hwn. simpl in Hwn.
  apply NoDup_remove_2 in Hwn. rewrite <- map_app in Hwn.
  apply Forall_forall. intros c Hc. apply has_id_false. intros Hid.
  apply Hwn. apply has_id_true in Ht. rewrite Ht, <- Hid.
  apply in_map. exact Hc.
Qed.

Lemma well_numbered_unused_counter (self : ChatBoard) :
  well_numbered self ->
  get_conversation (next_conversation_id self) self = None.
Proof.
  intros (ids & Hids & _ & Hbound). unfold get_conversation.
  apply find_none_Forall. apply Forall_forall. intros c Hc.
  apply has_id_false. intros Hid.
  assert (Hin : In (Some (next_conversation_id self)) (map Some ids)).
  { rewrite <- Hids, <- Hid. unfold store_ids. apply in_map. exact Hc. }
  apply in_map_iff in Hin as (n & Hn & Hin). injection Hn as ->.
  rewrite Forall_forall in Hbound. apply Hbound in Hin. lia.
Qed.

(** What [delete_conversation] does, on every store. *)
Lemma delete_conversation_cases (id : Z) (self : ChatBoard) (w : World) :
  (get_conversation id self = None
   /\ delete_conversation id self w = Return (false, self) w)
  \/ (exists before target after,
         conversations self = before ++ target :: after
         /\ has_id id target = true
         /\ Forall (fun c => has_id id c = false) before
         /\ delete_conversation id self w
            = Return (true, mk_ChatBoard (before ++ after) (current_user self)
                                         (next_conversation_id self))
                     (with_storage
                        (ChatBoard_to_dict
                           (mk_ChatBoard (before ++ after) (current_user self)
                                         (next_conversation_id self)))
                        w)).
Proof.
  destruct (get_conversation id self) as [conv |] eqn:E.
  - right. destruct (get_conversation_split _ _ _ E) as (before & after & Hl & Hc & Hb).
    exists before, conv, after. repeat split; try assumption.
    apply (delete_conversation_present id self w before after conv); assumption.
  - left. split; [reflexivity |]. apply delete_conversation_absent.
    apply find_none_Forall. exact E.
Qed.

(** X2.  [delete_conversation id] always returns and changes no lookup of
    another id.  On a store numbered the way [create_conversation] numbers
    it, the id is gone afterwards: looking it up finds nothing, and
    deleting it again answers [False] and writes nothing. *)
Theorem get_conversation_after_delete (id : Z) (self : ChatBoard) (w : World) :
  exists ok self' w',
    delete_conversation id self w = Return (ok, self') w'
    /\ (forall id', id' <> id ->
                    get_conversation id' self' = get_conversation id' self)
    /\ (well_numbered self ->
        get_conversation id self' = None
        /\ delete_conversation id self' w' = Return (false, self') w').
Proof.
  destruct (delete_conversation_cases id self w)
    as [[Hnone Hdel] | (before & target & after & Hl & Ht & Hb & Hdel)].
  - exists false, self, w. split; [exact Hdel |]. split; [reflexivity |].
    intros _. split; [exact Hnone | exact Hdel].
  - eexists _, _, _. split; [exact Hdel |]. split.
    + intros id' Hne. unfold get_conversation. simpl. rewrite Hl, !find_app.
      simpl. rewrite (has_id_other id id' target Hne Ht). reflexivity.
    + intros Hwn.
      pose proof (well_numbered_unique self id before after target Hwn Hl Ht) as Hu.
      assert (Hgone : get_conversation id
                        (mk_ChatBoard (before ++ after) (current_user self)
                                      (next_conversation_id self)) = None)
        by (apply find_none_Forall; exact Hu).
      split; [exact Hgone |]. apply delete_conversation_absent. exact Hu.
Qed.

Lemma well_numbered_lunch_board (user : option string) :
  well_numbered (lunch_board user).
Proof.
  exists [1%Z]. split; [reflexivity |]. split.
  - repeat constructor.
  - constructor; [simpl; lia | constructor].
Qed.

Lemma get_conversation_after_delete_witness :
  exists self' w',
    delete_conversation 1 (lunch_board None) fresh_world = Return (true, self') w'
    /\ get_conversation 1 self' = None
    /\ delete_conversation 1 self' w' = Return (false, self') w'.
Proof.
  destruct (get_conversation_after_delete 1 (lunch_board None) fresh_world)
    as (ok & self' & w' & Hdel & _ & Hgone).
  destruct (Hgone (well_numbered_lunch_board None)) as [Hnone Hagain].
  vm_compute in Hdel. injection Hdel as <- <- <-.
  eexists _, _. split; [vm_compute; reflexivity |].
  split; [exact Hnone | exact Hagain].
Defined.

Lemma mutate_first_split (id : Z) (f : Conversation -> Conversation)
      (before after : list Conversation) (conv : Conversation) :
  Forall (fun c => has_id id c = false) before ->
  has_id id conv = true ->
  mutate_first id f (before ++ conv :: after) = before ++ f conv :: after.
Proof.
  intros Hb Hc. induction Hb as [| c rest Hfalse Hrest IH]; simpl.
  - rewrite Hc. reflexivity.
  - rewrite Hfalse, IH. reflexivity.
Qed.

Lemma has_id_add_message (id : Z) (conv : Conversation) (m : Message) :
  has_id id (add_message conv m) = has_id id conv.
Proof. reflexivity. Qed.

(** X3.  A post that finds its conversation and an active user returns
    [True] and changes exactly one element of the list: the first
    conversation with the id, which receives at its end a message with the
    user as author, the given content and the clock reading of the call.
    Looking the id up afterwards gives that extended conversation, with one
    message more; lookups of other ids, the order of the list and the ids
    in it are as before. *)
Theorem post_message_appends_to_first (id : Z) (c : string) (self : ChatBoard)
        (w : World) (conv : Conversation) (user : string) :
  get_conversation id self = Some conv ->
  active_user self = Some user ->
  exists before after self' w',
    conversations self = before ++ conv :: after
    /\ Forall (fun c' => has_id id c' = false) before
    /\ post_message id c self w = Return (true, self') w'
    /\ let message := mk_Message user c (strftime (clock w (ticks w))) in
       conversations self' = before ++ add_message conv message :: after
       /\ get_conversation id self' = Some (add_message conv message)
       /\ get_message_count (add_message conv message) = S (get_message_count conv)
       /\ (forall id', id' <> id ->
                       get_conversation id' self' = get_conversation id' self)
       /\ store_ids self' = store_ids self.
Proof.
  intros Hconv Huser.
  destruct (get_conversation_split _ _ _ Hconv) as (before & after & Hl & Hc & Hb).
  exists before, after. eexists _, _. split; [exact Hl |]. split; [exact Hb |].
  split; [rewrite post_message_eq, Hconv, Huser; reflexivity |].
  simpl. rewrite Hl, (mutate_first_split _ _ _ _ _ Hb Hc).
  split; [reflexivity |]. split.
  - unfold get_conversation. simpl. apply find_first_match; assumption.
  - split.
    + unfold get_message_count, add_message. simpl.
      rewrite length_app. simpl. apply Nat.add_1_r.
    + split.
      * intros id' Hne. unfold get_conversation. simpl. rewrite Hl, !find_app.
        simpl. rewrite has_id_add_message, (has_id_other id id' conv Hne Hc).
        reflexivity.
      * unfold store_ids. simpl. rewrite Hl, !map_app. reflexivity.
Qed.

Lemma post_message_appends_to_first_witness :
  exists self' w',
    post_message 1 "Where should we eat?" (lunch_board (Some "alice")) fresh_world
    = Return (true, self') w'
    /\ get_conversation 1 self'
       = Some (add_message lunch
                 (mk_Message "alice" "Where should we eat?" "2024-05-17 12:00:00")).
Proof.
  destruct (post_message_appends_to_first
              1 "Where should we eat?" (lunch_board (Some "alice")) fresh_world
              lunch "alice" eq_refl eq_refl)
    as (before & after & self' & w' & _ & _ & Hpost & _ & Hget & _).
  exists self', w'. split; [exact Hpost | exact Hget].
Defined.

(** X4.  Creating a conversation and deleting it at once, on a store where
    the counter's id is not in use: the deletion answers [True] and the
    list is what it was before the creation, but the counter has moved on,
    so the id is spent. *)
Theorem delete_after_create_spends_id (t : string) (self : ChatBoard) (w : World) :
  get_conversation (next_conversation_id self) self = None ->
  exists conv self1 w1 self2 w2,
    create_conversation t self w = Return (conv, self1) w1
    /\ delete_conversation (next_conversation_id self) self1 w1
       = Return (true, self2) w2
    /\ conversations self2 = conversations self
    /\ next_conversation_id self2 = (next_conversation_id self + 1)%Z
    /\ get_conversation (next_conversation_id self) self2 = None.
Proof.
  intros Hfree.
  eexists _, _, _, _, _. split; [apply create_conversation_eq |].
  split.
  - eapply (delete_conversation_present _ _ _ (conversations self) []).
    + reflexivity.
    + unfold has_id. simpl. apply Z.eqb_refl.
    + apply find_none_Forall. exact Hfree.
  - simpl. rewrite app_nil_r. split; [reflexivity |]. split; [reflexivity |].
    unfold get_conversation. simpl. exact Hfree.
Qed.

Lemma delete_after_create_spends_id_witness :
  exists conv self1 w1 self2 w2,
    create_conversation "New topic" (lunch_board None) fresh_world
    = Return (conv, self1) w1
    /\ delete_conversation 2 self1 w1 = Return (true, self2) w2
    /\ conversations self2 = [lunch]
    /\ next_conversation_id self2 = 3%Z.
Proof.
  destruct (delete_after_create_spends_id "New topic" (lunch_board None)
                                          fresh_world eq_refl)
    as (conv & self1 & w1 & self2 & w2 & Hc & Hd & Hl & Hn & _).
  exists conv, self1, w1, self2, w2.
  split; [exact Hc |]. split; [exact Hd |]. split; [exact Hl | exact Hn].
Defined.

(** ** The numbering of the store *)

Lemma StronglySorted_snoc (l : list Z) (x : Z) :
  StronglySorted Z.lt l -> Forall (fun y => (y < x)%Z) l ->
  StronglySorted Z.lt (l ++ [x]).
Proof.
  induction 1 as [| y rest Hsorted IH Hall]; intros Hx; simpl.
  - repeat constructor.
  - inversion Hx as [| ? ? Hy Hrest]; subst.
    constructor; [apply IH; exact Hrest |].
    apply Forall_app. split; [exact Hall | repeat constructor; exact Hy].
Qed.

Lemma StronglySorted_remove (l1 l2 : list Z) (x : Z) :
  StronglySorted Z.lt (l1 ++ x :: l2) -> StronglySorted Z.lt (l1 ++ l2).
Proof.
  induction l1 as [| y rest IH]; simpl; intros H; inversion H as [| ? ? Hs Hall]; subst.
  - exact Hs.
  - constructor; [apply IH; exact Hs |].
    apply Forall_app in Hall as [H1 H2]. inversion H2; subst.
    apply Forall_app. split; assumption.
Qed.

Lemma map_conversation_id_mutate_first (id : Z) (m : Message) (l : list Conversation) :
  map conversation_id (mutate_first id (fun conv => add_message conv m) l)
  = map conversation_id l.
Proof.
  induction l as [| conv rest IH]; simpl; [reflexivity |].
  destruct (has_id id conv); simpl; [reflexivity | rewrite IH; reflexivity].
Qed.

(** One command keeps the numbering and never lowers the counter. *)
Lemma exec_well_numbered (cmd : command) (self self' : ChatBoard) (w w' : World)
      (r : response) :
  well_numbered self ->
  exec cmd self w = Return (r, self') w' ->
  well_numbered self'
  /\ (next_conversation_id self <= next_conversation_id self')%Z.
Proof.
  intros (ids & Hids & Hsorted & Hbound).
  destruct cmd as [u | t | id | | id | id c]; unfold exec, bind.
  - intros H. injection H as _ <- _.
    split; [exists ids; repeat split; assumption | simpl; lia].
  - rewrite create_conversation_eq. intros H. injection H as _ <- _.
    split; [| simpl; lia].
    exists (ids ++ [next_conversation_id self]).
    unfold store_ids in *. simpl. rewrite !map_app, Hids. simpl.
    split; [reflexivity |]. split.
    + apply StronglySorted_snoc; assumption.
    + apply Forall_app. split.
      * eapply Forall_impl; [| exact Hbound]. simpl. intros; lia.
      * repeat constructor. lia.
  - intros H. injection H as _ <- _.
    split; [exists ids; repeat split; assumption | lia].
  - intros H. injection H as _ <- _.
    split; [exists ids; repeat split; assumption | lia].
  - destruct (delete_conversation_cases id self w)
      as [[_ Hdel] | (before & target & after & Hl & _ & _ & Hdel)];
      rewrite Hdel; intros H; injection H as _ <- _.
    + split; [exists ids; repeat split; assumption | lia].
    + split; [| simpl; lia].
      unfold store_ids in Hids. rewrite Hl, map_app in Hids. simpl in Hids.
      symmetry in Hids. apply map_eq_app in Hids as (ids1 & tail & -> & H1 & Htail).
      apply map_eq_cons in Htail as (n & ids2 & -> & _ & H2).
      exists (ids1 ++ ids2). unfold store_ids. simpl.
      rewrite !map_app, H1, H2. split; [reflexivity |]. split.
      * eapply StronglySorted_remove. exact Hsorted.
      * apply Forall_app in Hbound as [Hb1 Hb2]. inversion Hb2; subst.
        apply Forall_app. split; assumption.
  - rewrite post_message_eq.
    destruct (get_conversation id self), (active_user self);
      intros H; injection H as _ <- _;
      try (split; [exists ids; repeat split; assumption | lia]).
    split; [| simpl; lia]. exists ids. unfold store_ids. simpl.
    rewrite map_conversation_id_mutate_first.
    repeat split; assumption.
Qed.

Lemma run_well_numbered (cmds : list command) :
  forall (self self' : ChatBoard) (w w' : World) (rs : list response),
    well_numbered self ->
    run cmds self w = Return (rs, self') w' ->
    well_numbered self'
    /\ (next_conversation_id self <= next_conversation_id self')%Z.
Proof.
  induction cmds as [| cmd rest IH]; intros self self' w w' rs Hwn Hrun;
    simpl in Hrun.
  - injection Hrun as _ <- _. split; [exact Hwn | lia].
  - invert_bind Hrun. invert_bind Hrun. injection Hrun as _ <- _.
    destruct a as [r self1]. destruct a0 as [rs' self2]. simpl in *.
    destruct (exec_well_numbered _ _ _ _ _ _ Hwn Hrun0) as [Hwn1 Hle1].
    destruct (IH _ _ _ _ _ Hwn1 Hrun1) as [Hwn2 Hle2].
    split; [exact Hwn2 | lia].
Qed.

Lemma well_numbered_empty_board : well_numbered empty_board.
Proof. exists []. repeat split; constructor. Qed.

(** X5.  The numbering is an invariant of the store.  If every
    conversation carries an id, the ids grow strictly along the list and
    all lie below the counter (as in the empty store of a first start),
    then the same holds after any run of commands; so the list stays in
    creation order, no two conversations share an id, and the id the next
    creation hands out is in use nowhere. *)
Theorem numbering_is_invariant (cmds : list command) (self self' : ChatBoard)
        (w w' : World) (rs : list response) :
  well_numbered self ->
  run cmds self w = Return (rs, self') w' ->
  well_numbered self'
  /\ NoDup (store_ids self')
  /\ get_conversation (next_conversation_id self') self' = None.
Proof.
  intros Hwn Hrun.
  destruct (run_well_numbered cmds _ _ _ _ _ Hwn Hrun) as [Hwn' _].
  split; [exact Hwn' |].
  split; [apply well_numbered_NoDup; exact Hwn' |].
  apply well_numbered_unused_counter; exact Hwn'.
Qed.

Lemma numbering_is_invariant_witness :
  exists rs self' w',
    run [CreateConversation "Lunch plans"; CreateConversation "Dinner";
         DeleteConversation 1; CreateConversation "Again"]
        empty_board fresh_world
    = Return (rs, self') w'
    /\ well_numbered self'
    /\ store_ids self' = [Some 2%Z; Some 3%Z].
Proof.
  eexists _, _, _. split; [vm_compute; reflexivity |].
  split; [| reflexivity].
  eapply (numbering_is_invariant
            [CreateConversation "Lunch plans"; CreateConversation "Dinner";
             DeleteConversation 1; CreateConversation "Again"]
            empty_board _ fresh_world _ _ well_numbered_empty_board).
  vm_compute. reflexivity.
Defined.

(** ** Conversations only grow *)

Lemma extends_refl (conv : Conversation) : extends conv conv.
Proof.
  repeat split. exists []. symmetry. apply app_nil_r.
Qed.

Lemma extends_trans (c1 c2 c3 : Conversation) :
  extends c1 c2 -> extends c2 c3 -> extends c1 c3.
Proof.
  intros (Ht & Hi & Hc & more & Hm) (Ht' & Hi' & Hc' & more' & Hm').
  repeat split; try congruence.
  exists (more ++ more'). rewrite Hm', Hm, app_assoc. reflexivity.
Qed.

Lemma find_skip (id : Z) (before after : list Conversation) (target : Conversation) :
  has_id id target = false ->
  find (has_id id) (before ++ target :: after) = find (has_id id) (before ++ after).
Proof. intros H. rewrite !find_app. simpl. rewrite H. reflexivity. Qed.

(** One command, seen from an id below the counter: a conversation found
    under it afterwards was found under it before, and has only grown. *)
Lemma exec_extends (cmd : command) (self self' : ChatBoard) (w w' : World)
      (r : response) (id : Z) (conv' : Conversation) :
  well_numbered self ->
  exec cmd self w = Return (r, self') w' ->
  (id < next_conversation_id self)%Z ->
  get_conversation id self' = Some conv' ->
  exists conv, get_conversation id self = Some conv /\ extends conv conv'.
Proof.
  intros Hwn Hexec Hid Hfound.
  assert (Hsame : get_conversation id self = Some conv' ->
                  exists conv, get_conversation id self = Some conv
                               /\ extends conv conv')
    by (intros H; exists conv'; split; [exact H | apply extends_refl]).
  destruct cmd as [u | t | id0 | | id0 | id0 c]; unfold exec, bind in Hexec.
  - injection Hexec as _ <- _. apply Hsame. exact Hfound.
  - rewrite create_conversation_eq in Hexec. injection Hexec as _ <- _.
    apply Hsame. unfold get_conversation in *. simpl in Hfound.
    rewrite find_app in Hfound.
    destruct (find (has_id id) (conversations self)); [exact Hfound |].
    simpl in Hfound. unfold has_id in Hfound. simpl in Hfound.
    destruct (Z.eqb_spec (next_conversation_id self) id); [lia | discriminate].
  - injection Hexec as _ <- _. apply Hsame. exact Hfound.
  - injection Hexec as _ <- _. apply Hsame. exact Hfound.
  - destruct (delete_conversation_cases id0 self w)
      as [[_ Hdel] | (before & target & after & Hl & Ht & _ & Hdel)];
      rewrite Hdel in Hexec; injection Hexec as _ <- _.
    + apply Hsame. exact Hfound.
    + apply Hsame. unfold get_conversation in *. simpl in Hfound.
      destruct (Z.eq_dec id id0) as [-> | Hne].
      * pose proof (well_numbered_unique self id0 before after target Hwn Hl Ht) as Hu.
        apply find_none_Forall in Hu. congruence.
      * rewrite Hl, find_skip; [exact Hfound |].
        apply (has_id_other id0 id target Hne Ht).
  - rewrite post_message_eq in Hexec.
    destruct (get_conversation id0 self) as [conv0 |] eqn:Hconv0;
      [destruct (active_user self) as [user |] |];
      injection Hexec as _ <- _; try (apply Hsame; exact Hfound).
    destruct (get_conversation_split _ _ _ Hconv0) as (before & after & Hl & Hc & Hb).
    unfold get_conversation in Hfound. simpl in Hfound.
    rewrite Hl, (mutate_first_split _ _ _ _ _ Hb Hc) in Hfound.
    destruct (Z.eq_dec id id0) as [-> | Hne].
    + rewrite find_first_match in Hfound; [| exact Hb | exact Hc].
      injection Hfound as <-. exists conv0. split; [exact Hconv0 |].
      repeat split. eexists. reflexivity.
    + apply Hsame. unfold get_conversation. rewrite Hl.
      rewrite find_skip in Hfound
        by (rewrite has_id_add_message; apply (has_id_other id0 id conv0 Hne Hc)).
      rewrite find_skip by (apply (has_id_other id0 id conv0 Hne Hc)).
      exact Hfound.
Qed.

(** X6.  Conversations only grow, and a deleted id never comes back.  On a
    store numbered as by [create_conversation], after any run: a
    conversation found under an id that was below the counter at the start
    was already found under that id at the start, with the same title, id
    and creation time, and its messages then are an initial segment of its
    messages now.  In particular an id deleted during the run is found no
    more, whatever is created later. *)
Theorem conversations_only_grow (cmds : list command) :
  forall (self self' : ChatBoard) (w w' : World) (rs : list response)
         (id : Z) (conv' : Conversation),
    well_numbered self ->
    run cmds self w = Return (rs, self') w' ->
    (id < next_conversation_id self)%Z ->
    get_conversation id self' = Some conv' ->
    exists conv, get_conversation id self = Some conv /\ extends conv conv'.
Proof.
  induction cmds as [| cmd rest IH];
    intros self self' w w' rs id conv' Hwn Hrun Hid Hfound; simpl in Hrun.
  - injection Hrun as _ <- _. exists conv'. split; [exact Hfound | apply extends_refl].
  - invert_bind Hrun. invert_bind Hrun. injection Hrun as _ <- _.
    destruct a as [r self1]. destruct a0 as [rs' self2]. simpl in *.
    destruct (exec_well_numbered _ _ _ _ _ _ Hwn Hrun0) as [Hwn1 Hle1].
    assert (Hid1 : (id < next_conversation_id self1)%Z) by lia.
    destruct (IH _ _ _ _ _ _ _ Hwn1 Hrun1 Hid1 Hfound) as (conv1 & Hfound1 & Hext1).
    destruct (exec_extends _ _ _ _ _ _ _ _ Hwn Hrun0 Hid Hfound1)
      as (conv & Hfound0 & Hext0).
    exists conv. split; [exact Hfound0 | eapply extends_trans; eassumption].
Qed.

Lemma conversations_only_grow_witness :
  exists conv,
    get_conversation 1 (lunch_board (Some "alice")) = Some conv
    /\ extends conv
         (add_message lunch
            (mk_Message "alice" "Where should we eat?" "2024-05-17 12:00:00")).
Proof.
  eapply (conversations_only_grow
            [CreateConversation "Dinner"; PostMessage 1 "Where should we eat?";
             DeleteConversation 2]
            (lunch_board (Some "alice")) _ fresh_world _ _ 1%Z).
  - apply well_numbered_lunch_board.
  - vm_compute. reflexivity.
  - vm_compute. reflexivity.
  - vm_compute. reflexivity.
Defined.

(** ** The file follows the store *)

(** One command: it returns; with a mutation the file holds the dump of
    the new store and the write log has one more entry, without one the
    stored part and the world are untouched.  The console is never used. *)
Lemma exec_effect (cmd : command) (self : ChatBoard) (w : World) :
  exists r self' w',
    exec cmd self w = Return (r, self') w'
    /\ console w' = console w
    /\ if is_mutation r
       then in_sync self' w'
            /\ written w' = ChatBoard_to_dict self' :: written w
       else stored_part self' = stored_part self /\ w' = w.
Proof.
  destruct cmd as [u | t | id | | id | id c]; unfold exec, bind.
  - eexists _, _, _. split; [reflexivity |]. repeat split.
  - rewrite create_conversation_eq. eexists _, _, _.
    split; [reflexivity |]. repeat split.
  - eexists _, _, _. split; [reflexivity |]. repeat split.
  - eexists _, _, _. split; [reflexivity |]. repeat split.
  - unfold delete_conversation.
    destruct (first_index id (conversations self) 0) as [i |];
      eexists _, _, _; (split; [reflexivity |]); repeat split.
  - rewrite post_message_eq.
    destruct (get_conversation id self), (active_user self);
      eexists _, _, _; (split; [reflexivity |]); repeat split.
Qed.

Lemma in_sync_stored_part (self self' : ChatBoard) (w : World) :
  stored_part self' = stored_part self -> in_sync self w -> in_sync self' w.
Proof.
  unfold stored_part, in_sync, ChatBoard_to_dict.
  intros H. injection H as -> ->. exact (fun H => H).
Qed.

Lemma run_effect (cmds : list command) :
  forall (self : ChatBoard) (w : World),
  exists rs self' w',
    run cmds self w = Return (rs, self') w'
    /\ console w' = console w
    /\ List.length (written w') = (mutations rs + List.length (written w))%nat
    /\ (mutations rs = O -> stored_part self' = stored_part self /\ w' = w)
    /\ (in_sync self w \/ mutations rs <> O -> in_sync self' w').
Proof.
  induction cmds as [| cmd rest IH]; intros self w.
  - exists [], self, w. split; [reflexivity |]. split; [reflexivity |].
    split; [reflexivity |]. split; [intros _; split; reflexivity |].
    intros [H | H]; [exact H | contradiction].
  - destruct (exec_effect cmd self w) as (r & self1 & w1 & He & Hc1 & Hr).
    destruct (IH self1 w1) as (rs & self2 & w2 & Hrun & Hc2 & Hlen & Hnone & Hsync).
    exists (r :: rs), self2, w2.
    split; [exact (run_cons _ _ _ _ _ _ _ _ _ _ He Hrun) |].
    split; [congruence |].
    unfold mutations in *. simpl. destruct (is_mutation r); simpl.
    + destruct Hr as [Hs Hw]. split; [rewrite Hlen, Hw; simpl; lia |].
      split; [discriminate |]. intros _. apply Hsync. left. exact Hs.
    + destruct Hr as [Hs ->]. split; [exact Hlen |]. split.
      * intros H0. destruct (Hnone H0) as [Hs' ->]. split; [congruence | reflexivity].
      * intros [H | H]; apply Hsync; [left | right; exact H].
        apply (in_sync_stored_part self self1 w Hs H).
Qed.

(** X7.  Every run of commands returns, prints nothing, and writes the
    file once for each creation, each deletion that removes and each post
    that succeeds, and at no other occasion: reads, failed deletions and
    posts and changes of the username write nothing.  A run without any
    of the three leaves the world as it was, and the conversations and the
    counter too. *)
Theorem writes_match_mutations (cmds : list command) (self : ChatBoard) (w : World) :
  exists rs self' w',
    run cmds self w = Return (rs, self') w'
    /\ console w' = console w
    /\ List.length (written w') = (mutations rs + List.length (written w))%nat
    /\ (mutations rs = O -> stored_part self' = stored_part self /\ w' = w).
Proof.
  destruct (run_effect cmds self w)
    as (rs & self' & w' & Hrun & Hconsole & Hlen & Hnone & _).
  exists rs, self', w'. repeat split; try assumption; apply Hnone; assumption.
Qed.

Lemma writes_match_mutations_witness :
  exists rs self' w',
    run [SetUsername "alice"; PostMessage 7 "hi"; DeleteConversation 7;
         GetConversation 1; ListConversations]
        (lunch_board None) fresh_world
    = Return (rs, self') w'
    /\ w' = fresh_world.
Proof.
  destruct (writes_match_mutations
              [SetUsername "alice"; PostMessage 7 "hi"; DeleteConversation 7;
               GetConversation 1; ListConversations]
              (lunch_board None) fresh_world)
    as (rs & self' & w' & Hrun & _ & _ & Hnone).
  exists rs, self', w'. split; [exact Hrun |].
  apply Hnone. vm_compute in Hrun. injection Hrun as <- _ _. reflexivity.
Defined.

Lemma storage_advance (n : nat) (w : World) :
  storage (advance n w) = storage w.
Proof. revert w. induction n as [| n IH]; intros w; simpl; [| rewrite IH]; reflexivity. Qed.

(** The constructor on a file that holds the dump of a store with timed
    messages. *)
Lemma ChatBoard_init_in_sync (self : ChatBoard) (w : World) :
  timestamps_set self ->
  in_sync self w ->
  ChatBoard_init w
  = Return (loaded_of_board (with_user None self))
           (advance (List.length (conversations self)) w).
Proof.
  intros Hts Hsync. unfold ChatBoard_init.
  rewrite (load_data_well_formed
             _ w
             [("conversations", JArr (map Conversation_to_dict (conversations self)));
              ("next_conversation_id", JInt (next_conversation_id self))]
             (conversations self) Hsync eq_refl Hts).
  reflexivity.
Qed.

(** X8.  Restarting sees the last state.  Take a store the program can be
    in and run any commands; if the file held the dump of the store
    before, or the run made at least one mutation, then afterwards the
    file holds the dump of the final store, and a constructor run on it
    returns the final conversations and counter (with no user) and prints
    no warning. *)
Theorem restart_sees_final_state (cmds : list command) (self self' : ChatBoard)
        (w w' : World) (rs : list response) :
  reachable self ->
  run cmds self w = Return (rs, self') w' ->
  in_sync self w \/ mutations rs <> O ->
  in_sync self' w'
  /\ exists w'',
      ChatBoard_init w'
      = Return (loaded_of_board
                  (mk_ChatBoard (conversations self') None
                                (next_conversation_id self')))
               w''
      /\ console w'' = console w'.
Proof.
  intros Hreach Hrun Hstart.
  destruct (run_effect cmds self w) as (rs0 & self0 & w0 & Hrun0 & _ & _ & _ & Hsync).
  rewrite Hrun in Hrun0. injection Hrun0 as <- <- <-.
  specialize (Hsync Hstart). split; [exact Hsync |].
  pose proof (reachable_timestamps_set _ (reachable_run _ _ _ _ _ _ Hreach Hrun)) as Hts.
  eexists. split; [apply (ChatBoard_init_in_sync self' w' Hts Hsync) |].
  apply console_advance.
Qed.

Lemma restart_sees_final_state_witness :
  exists rs self' w' w'',
    run [CreateConversation "Lunch plans"; SetUsername "alice";
         PostMessage 1 "Where should we eat?"] empty_board fresh_world
    = Return (rs, self') w'
    /\ ChatBoard_init w'
       = Return (loaded_of_board (with_user None posted_board)) w''.
Proof.
  assert (Hrun : run [CreateConversation "Lunch plans"; SetUsername "alice";
                      PostMessage 1 "Where should we eat?"]
                     empty_board fresh_world
                 = Return ([Created lunch; Done; Posted true], posted_board)
                          (advance 2 (with_storage (ChatBoard_to_dict posted_board)
                                        (with_storage
                                           (ChatBoard_to_dict (lunch_board None))
                                           fresh_world))))
    by (vm_compute; reflexivity).
  destruct (restart_sees_final_state _ _ _ _ _ _ reachable_empty_board Hrun)
    as (_ & w'' & Hinit & _).
  - right. vm_compute. discriminate.
  - eexists _, _, _, w''. split; [exact Hrun | exact Hinit].
Defined.

(** ** Across restarts *)

Lemma run_timestamps_set (cmds : list command) :
  forall (self self' : ChatBoard) (w w' : World) (rs : list response),
    timestamps_set self ->
    run cmds self w = Return (rs, self') w' ->
    timestamps_set self'.
Proof.
  induction cmds as [| cmd rest IH]; intros self self' w w' rs Hts Hrun;
    simpl in Hrun.
  - injection Hrun as _ <- _. exact Hts.
  - invert_bind Hrun. invert_bind Hrun. injection Hrun as _ <- _.
    destruct a as [r self1]. destruct a0 as [rs' self2]. simpl in *.
    eapply IH; [| eassumption]. eapply exec_timestamps_set; eassumption.
Qed.

Lemma StronglySorted_app (l1 l2 : list Z) (bound : Z) :
  StronglySorted Z.lt l1 -> StronglySorted Z.lt l2 ->
  Forall (fun x => (x < bound)%Z) l1 -> Forall (fun y => (bound <= y)%Z) l2 ->
  StronglySorted Z.lt (l1 ++ l2).
Proof.
  intros H1 H2 Hb1 Hb2. induction H1 as [| x rest Hs IH Hall]; simpl; [exact H2 |].
  inversion Hb1 as [| ? ? Hx Hrest]; subst.
  constructor; [apply IH; exact Hrest |].
  apply Forall_app. split; [exact Hall |].
  eapply Forall_impl; [| exact Hb2]. simpl. intros; lia.
Qed.

Lemma created_without_mutation (rs : list response) :
  mutations rs = O -> created rs = [].
Proof.
  unfold mutations. induction rs as [| r rest IH]; simpl; [reflexivity |].
  destruct r as [| conv | found | convs | ok | ok]; simpl;
    try exact IH; try discriminate;
    destruct ok; simpl; (exact IH || discriminate).
Qed.

(** What one session does to a settled file. *)
Lemma session_settled (w w1 w2 : World) (issued ids : list Z)
      (self self' : ChatBoard) (cmds : list command) (rs : list response) :
  StronglySorted Z.lt issued ->
  settled w issued ->
  ChatBoard_init w = Return (loaded_of_board self) w1 ->
  run cmds self w1 = Return (rs, self') w2 ->
  map conversation_id (created rs) = map Some ids ->
  StronglySorted Z.lt (issued ++ ids) /\ settled w2 (issued ++ ids).
Proof.
  intros Hsorted Hsettled Hinit Hrun Hids.
  (* the store the constructor built, and the world it left *)
  assert (Hstart : well_numbered self /\ timestamps_set self
                   /\ Forall (fun id => (id < next_conversation_id self)%Z) issued
                   /\ (in_sync self w1 \/ (storage w1 = None /\ issued = []))).
  { destruct Hsettled as [[Hnone ->] | (self0 & Hwn & Hts & Hsync & Hbound)].
    - rewrite (ChatBoard_init_absent w Hnone) in Hinit.
      assert (Hself : loaded_of_board empty_board = loaded_of_board self)
        by (change (loaded_of_board empty_board)
              with (mk_LoadedBoard [] None (JInt 1)); congruence).
      assert (w1 = w) as -> by congruence.
      apply loaded_of_board_inj in Hself as <-.
      split; [apply well_numbered_empty_board |].
      split; [constructor |]. split; [constructor |]. right. split; [exact Hnone | reflexivity].
    - rewrite (ChatBoard_init_in_sync self0 w Hts Hsync) in Hinit.
      assert (Hself : loaded_of_board (with_user None self0) = loaded_of_board self)
        by congruence.
      assert (w1 = advance (List.length (conversations self0)) w) as ->
        by congruence.
      apply loaded_of_board_inj in Hself as <-.
      split; [exact Hwn |]. split; [exact Hts |]. split; [exact Hbound |].
      left. unfold in_sync. rewrite storage_advance. exact Hsync. }
  destruct Hstart as (Hwn & Hts & Hbound & Hfile).
  (* the run *)
  destruct (run_issues_fresh_ids cmds self w1)
    as (rs0 & self0 & w0 & ids0 & Hrun0 & Hids0 & Hsorted0 & Hrange & Hle).
  rewrite Hrun in Hrun0. injection Hrun0 as <- <- <-.
  assert (ids0 = ids) as ->.
  { rewrite Hids in Hids0. symmetry.
    apply (map_inj Some) in Hids0; [exact Hids0 |].
    intros x y H. injection H as ->. reflexivity. }
  destruct (run_effect cmds self w1)
    as (rs0 & self0 & w0 & Hrun0 & _ & _ & Hnone & Hsync).
  rewrite Hrun in Hrun0. injection Hrun0 as <- <- <-.
  destruct (run_well_numbered cmds _ _ _ _ _ Hwn Hrun) as [Hwn' _].
  pose proof (run_timestamps_set cmds _ _ _ _ _ Hts Hrun) as Hts'.
  split.
  - apply (StronglySorted_app issued ids (next_conversation_id self));
      try assumption.
    eapply Forall_impl; [| exact Hrange]. simpl. intros; lia.
  - assert (Hall : Forall (fun id => (id < next_conversation_id self')%Z)
                          (issued ++ ids)).
    { apply Forall_app. split.
      - eapply Forall_impl; [| exact Hbound]. simpl. intros; lia.
      - eapply Forall_impl; [| exact Hrange]. simpl. intros; lia. }
    destruct (Nat.eq_dec (mutations rs) O) as [Hzero | Hsome].
    + destruct (Hnone Hzero) as [Hpart ->].
      destruct Hfile as [Hin | [Hstorage ->]].
      * right. exists self'. repeat split; try assumption.
        apply (in_sync_stored_part self self' w1 Hpart Hin).
      * left. split; [exact Hstorage |].
        rewrite (created_without_mutation rs Hzero) in Hids.
        destruct ids; [reflexivity | discriminate Hids].
    + right. exists self'. repeat split; try assumption.
      apply Hsync. right. exact Hsome.
Qed.

Lemma left_behind_settled (w : World) (issued : list Z) :
  left_behind w issued -> StronglySorted Z.lt issued /\ settled w issued.
Proof.
  induction 1 as [w Hnone | w w1 w2 issued ids self self' cmds rs _ [Hsorted Hsettled]
                                 Hinit Hrun Hids].
  - split; [constructor | left; split; [exact Hnone | reflexivity]].
  - exact (session_settled w w1 w2 issued ids self self' cmds rs
                           Hsorted Hsettled Hinit Hrun Hids).
Qed.

(** X9.  Ids are never reused across restarts.  Start without a file and
    run the program any number of times, each run constructing the store
    and executing any commands.  Then the ids handed out by
    [create_conversation] over all the runs are strictly increasing, so no
    two are equal; and the next start finds a file (or none) from which the
    constructor returns a store, prints no warning, and this store is
    numbered as by [create_conversation] with its counter above every id
    ever handed out. *)
Theorem ids_never_reused_across_restarts (w : World) (issued : list Z) :
  left_behind w issued ->
  StronglySorted Z.lt issued
  /\ NoDup issued
  /\ exists self w1,
      ChatBoard_init w = Return (loaded_of_board self) w1
      /\ console w1 = console w
      /\ well_numbered self
      /\ Forall (fun id => (id < next_conversation_id self)%Z) issued.
Proof.
  intros H. apply left_behind_settled in H as [Hsorted Hsettled].
  split; [exact Hsorted |].
  split; [apply StronglySorted_lt_NoDup; exact Hsorted |].
  destruct Hsettled as [[Hnone ->] | (self & Hwn & Hts & Hsync & Hbound)].
  - exists empty_board, w. split; [apply ChatBoard_init_absent; exact Hnone |].
    split; [reflexivity |]. split; [apply well_numbered_empty_board | constructor].
  - exists (with_user None self), (advance (List.length (conversations self)) w).
    split; [apply ChatBoard_init_in_sync; assumption |].
    split; [apply console_advance |]. split; [exact Hwn | exact Hbound].
Qed.

Lemma ids_never_reused_across_restarts_witness :
  exists w self w1,
    left_behind w [1%Z; 2%Z]
    /\ ChatBoard_init w = Return (loaded_of_board self) w1
    /\ well_numbered self
    /\ Forall (fun id => (id < next_conversation_id self)%Z) [1%Z; 2%Z].
Proof.
  assert (H : exists w, left_behind w (([] ++ [1%Z]) ++ [2%Z])).
  { eexists.
    eapply (left_behind_session _ _ _ _ [2%Z] (lunch_board None) _
                                [CreateConversation "Dinner"]).
    - eapply (left_behind_session fresh_world _ _ [] [1%Z] empty_board _
                                  [CreateConversation "Lunch plans"]).
      + apply left_behind_start. reflexivity.
      + reflexivity.
      + reflexivity.
      + reflexivity.
    - reflexivity.
    - reflexivity.
    - reflexivity. }
  destruct H as [w Hleft]. simpl in Hleft.
  destruct (ids_never_reused_across_restarts w _ Hleft)
    as (_ & _ & self & w1 & Hinit & _ & Hwn & Hbound).
  exists w, self, w1. repeat split; assumption.
Defined.

(** * Further properties of the loader *)

(** ** Loading leaves the file alone *)

Lemma only_ticks_refl (w : World) : only_ticks w w.
Proof. repeat split. Qed.

Lemma only_ticks_trans (w1 w2 w3 : World) :
  only_ticks w1 w2 -> only_ticks w2 w3 -> only_ticks w1 w3.
Proof.
  intros (Hs & Hw & Hc & Hk) (Hs' & Hw' & Hc' & Hk').
  repeat split; congruence.
Qed.

Lemma quiet_ret {A} (a : A) : quiet (ret a).
Proof. intros w. apply only_ticks_refl. Qed.

Lemma quiet_raise {A} (e : exn) : quiet (@raise A e).
Proof. intros w. apply only_ticks_refl. Qed.

Lemma quiet_now : quiet now.
Proof. intros w. repeat split. Qed.

Lemma quiet_bind {A B} (c : M A) (k : A -> M B) :
  quiet c -> (forall a, quiet (k a)) -> quiet (bind c k).
Proof.
  intros Hc Hk w. unfold bind. specialize (Hc w).
  destruct (c w) as [a w1 | e w1]; [| exact Hc].
  specialize (Hk a w1).
  destruct (k a w1) as [b w2 | e w2]; eapply only_ticks_trans; eassumption.
Qed.

Lemma quiet_mapM {A B} (f : A -> M B) (l : list A) :
  (forall x, quiet (f x)) -> quiet (mapM f l).
Proof.
  intros Hf. induction l as [| x rest IH]; simpl; [apply quiet_ret |].
  apply quiet_bind; [apply Hf |]. intros y.
  apply quiet_bind; [exact IH |]. intros ys. apply quiet_ret.
Qed.

Lemma quiet_getitem (data : json) (key : string) : quiet (getitem data key).
Proof.
  unfold getitem. destruct data; try apply quiet_raise.
  destruct (dict_lookup key fields); [apply quiet_ret | apply quiet_raise].
Qed.

Lemma quiet_get_default (data : json) (key : string) (default : json) :
  quiet (get_default data key default).
Proof.
  unfold get_default. destruct data; try apply quiet_raise.
  destruct (dict_lookup key fields); apply quiet_ret.
Qed.

Lemma quiet_iterate (data : json) : quiet (iterate data).
Proof.
  unfold iterate. destruct data; try apply quiet_raise; apply quiet_ret.
Qed.

Lemma quiet_Message_from_dict (data : json) : quiet (Message_from_dict data).
Proof.
  unfold Message_from_dict.
  apply quiet_bind; [apply quiet_getitem |]. intros a.
  apply quiet_bind; [apply quiet_getitem |]. intros c.
  apply quiet_bind; [apply quiet_getitem |]. intros t.
  unfold Message_init_loaded. destruct (truthy t); [apply quiet_ret |].
  apply quiet_bind; [apply quiet_now |]. intros s. apply quiet_ret.
Qed.

Lemma quiet_Conversation_from_dict (data : json) :
  quiet (Conversation_from_dict data).
Proof.
  unfold Conversation_from_dict.
  apply quiet_bind; [apply quiet_getitem |]. intros t.
  apply quiet_bind; [apply quiet_getitem |]. intros id.
  apply quiet_bind; [apply quiet_now |]. intros s.
  apply quiet_bind; [apply quiet_getitem |]. intros created.
  apply quiet_bind; [apply quiet_getitem |]. intros raw.
  apply quiet_bind; [apply quiet_iterate |]. intros items.
  apply quiet_bind; [apply quiet_mapM; apply quiet_Message_from_dict |].
  intros msgs. apply quiet_ret.
Qed.

(** X10.  Loading never touches the file.  Whatever the store and the
    world, [load_data] leaves the storage file, the write log and the
    clock as they were, whether it returns or raises.  It prints at most
    one warning; when it prints one, the exception reported is one its
    handler lists, the store it returns has no conversation, and the
    counter is the one the store had on entry (not the one in the file).
    When it raises, nothing has been printed. *)
Theorem loading_never_writes (self : LoadedBoard) (w : World) :
  match load_data self w with
  | Return self' w' =>
      storage w' = storage w /\ written w' = written w /\ clock w' = clock w
      /\ (console w' = console w
          \/ exists e,
               caught_by_load_data e = true
               /\ console w' = e :: console w
               /\ loaded_conversations self' = []
               /\ loaded_next_conversation_id self'
                  = loaded_next_conversation_id self)
  | Raise e w' => only_ticks w w'
  end.
Proof.
  unfold load_data. destruct (storage w) as [c |] eqn:Hc.
  2: { cbn. repeat split; [exact Hc | left; reflexivity]. }
  unfold try_except.
  match goal with |- context [match ?body w with _ => _ end] =>
    assert (Hquiet : quiet body) end.
  { apply quiet_bind.
    - destruct c; [apply quiet_raise | apply quiet_ret].
    - intros data. apply quiet_bind; [apply quiet_get_default |]. intros raw.
      apply quiet_bind; [apply quiet_iterate |]. intros items.
      apply quiet_bind; [apply quiet_mapM; apply quiet_Conversation_from_dict |].
      intros convs. apply quiet_bind; [apply quiet_get_default |].
      intros next. apply quiet_ret. }
  specialize (Hquiet w).
  match goal with |- context [match ?body w with _ => _ end] =>
    destruct (body w) as [self' w' | e w'] end.
  - destruct Hquiet as (Hs & Hw & Hk & Hcl).
    split; [congruence |]. split; [exact Hw |]. split; [exact Hcl |].
    left. exact Hk.
  - destruct (caught_by_load_data e) eqn:Hcaught; [| exact Hquiet].
    destruct Hquiet as (Hs & Hw & Hk & Hcl). simpl.
    split; [congruence |]. split; [exact Hw |]. split; [exact Hcl |].
    right. exists e. split; [exact Hcaught |].
    split; [rewrite Hk; reflexivity |]. split; reflexivity.
Qed.

(** ** Loaded messages are timed *)

(** X11.  Whatever the file holds, every message of a store the
    constructor returns carries a time with a true truth value: a record
    whose [timestamp] is empty, null, zero or otherwise false receives the
    clock reading of its construction instead. *)
Theorem loaded_messages_are_timed (w w' : World) (self : LoadedBoard) :
  ChatBoard_init w = Return self w' ->
  loaded_timestamps_set self.
Proof.
  intros Hinit. unfold ChatBoard_init in Hinit.
  pose proof (load_data_outcome (mk_LoadedBoard [] None (JInt 1)) w) as H.
  rewrite Hinit in H. apply H. constructor.
Qed.

Lemma loaded_messages_are_timed_witness :
  exists self w',
    ChatBoard_init untimed_world = Return self w'
    /\ loaded_timestamps_set self
    /\ map (fun conv => map loaded_timestamp (loaded_messages conv))
           (loaded_conversations self)
       = [[JStr "2024-05-17 12:00:00"]].
Proof.
  destruct (ChatBoard_init untimed_world) as [self w' | e w'] eqn:Hinit;
    [| vm_compute in Hinit; discriminate Hinit].
  exists self, w'. split; [reflexivity |].
  split; [exact (loaded_messages_are_timed untimed_world w' self Hinit) |].
  vm_compute in Hinit. injection Hinit as <- _. reflexivity.
Defined.

(** ** Messages through their dict *)

(** X12.  [Message.from_dict(m.to_dict())] always returns, with the author
    and the content of [m].  It gives [m] back, without reading the clock,
    exactly when the timestamp of [m] is not the empty string; a message
    with an empty timestamp comes back with the clock reading instead. *)
Theorem message_round_trip_iff (m : Message) (w : World) :
  (timestamp m <> "" <->
   Message_from_dict (Message_to_dict m) w = Return (loaded_of_message m) w)
  /\ (timestamp m = "" ->
      Message_from_dict (Message_to_dict m) w
      = Return (mk_LoadedMessage (JStr (author m)) (JStr (content m))
                                 (JStr (strftime (clock w (ticks w)))))
               (with_tick w)).
Proof.
  assert (Hempty : timestamp m = "" ->
                   Message_from_dict (Message_to_dict m) w
                   = Return (mk_LoadedMessage (JStr (author m)) (JStr (content m))
                                              (JStr (strftime (clock w (ticks w)))))
                            (with_tick w)).
  { intros Ht. unfold Message_from_dict, Message_to_dict, Message_init_loaded,
                      getitem, bind, ret. simpl. rewrite Ht. reflexivity. }
  split; [| exact Hempty]. split.
  - apply Message_from_dict_to_dict.
  - intros Hback Ht. rewrite (Hempty Ht) in Hback.
    injection Hback as Hstamp _. unfold loaded_of_message in Hstamp.
    rewrite Ht in Hstamp. exact (strftime_nonempty _ Hstamp).
Qed.

Lemma message_round_trip_iff_witness :
  Message_from_dict (Message_to_dict (mk_Message "alice" "hi" "")) fresh_world
  = Return (mk_LoadedMessage (JStr "alice") (JStr "hi") (JStr "2024-05-17 12:00:00"))
           (with_tick fresh_world)
  /\ Message_from_dict (Message_to_dict (mk_Message "alice" "hi" "noon")) fresh_world
     = Return (loaded_of_message (mk_Message "alice" "hi" "noon")) fresh_world.
Proof.
  split.
  - apply (message_round_trip_iff (mk_Message "alice" "hi" "") fresh_world).
    reflexivity.
  - apply (message_round_trip_iff (mk_Message "alice" "hi" "noon") fresh_world).
    discriminate.
Defined.

(** ** Files the loader gives up on *)

Lemma Conversation_from_dict_missing (fields : list (string * json)) (key : string)
      (w : World) :
  first_missing_key fields = Some key ->
  exists w', Conversation_from_dict (JObj fields) w = Raise (KeyError key) w'
             /\ only_ticks w w'.
Proof.
  unfold first_missing_key, Conversation_from_dict, getitem, now, bind, raise, ret.
  simpl.
  destruct (dict_lookup "title" fields);
    [| intros H; injection H as <-; eexists; split; [reflexivity | repeat split]].
  destruct (dict_lookup "conversation_id" fields);
    [| intros H; injection H as <-; eexists; split; [reflexivity | repeat split]].
  destruct (dict_lookup "created_at" fields);
    [| intros H; injection H as <-; eexists; split; [reflexivity | repeat split]].
  destruct (dict_lookup "messages" fields);
    [discriminate | intros H; injection H as <-; eexists; split; [reflexivity | repeat split]].
Qed.

Lemma mapM_Raise_at {A B} (f : A -> M B) (l1 l2 : list A) (x : A) (bs : list B)
      (e : exn) (w w1 w2 : World) :
  mapM f l1 w = Return bs w1 ->
  f x w1 = Raise e w2 ->
  mapM f (l1 ++ x :: l2) w = Raise e w2.
Proof.
  revert bs w. induction l1 as [| y rest IH]; intros bs w H1 Hx; simpl in *.
  - injection H1 as _ <-. unfold bind. rewrite Hx. reflexivity.
  - invert_bind H1. invert_bind H1. injection H1 as _ <-. unfold bind.
    rewrite H0, (IH _ _ H2 Hx). reflexivity.
Qed.

Lemma only_ticks_advance (n : nat) (w : World) : only_ticks w (advance n w).
Proof.
  revert w. induction n as [| n IH]; intros w; simpl; [apply only_ticks_refl |].
  eapply only_ticks_trans; [| apply IH]. repeat split.
Qed.

(** X13.  One record short of a key costs the whole file.  If the
    [conversations] list of the file holds, after any number of sound
    records, a record in which one of [title], [conversation_id],
    [created_at], [messages] is missing, the constructor returns a store
    with no conversation at all and with counter 1, whatever the sound
    records were, whatever follows the damaged one and whatever counter
    the file gives; it reports the [KeyError] of the first missing key and
    leaves the file as it is. *)
Theorem one_bad_record_discards_all (w : World) (fields record : list (string * json))
        (good : list Conversation) (rest : list json) (key : string) :
  storage w = Some (Document (JObj fields)) ->
  dict_lookup "conversations" fields
  = Some (JArr (map Conversation_to_dict good ++ JObj record :: rest)) ->
  Forall (fun conv => Forall (fun m => timestamp m <> "") (messages conv)) good ->
  first_missing_key record = Some key ->
  exists w',
    ChatBoard_init w = Return (mk_LoadedBoard [] None (JInt 1)) w'
    /\ console w' = KeyError key :: console w
    /\ storage w' = storage w
    /\ written w' = written w.
Proof.
  intros Hw Hconvs Hgood Hmissing. unfold ChatBoard_init.
  rewrite (load_data_object _ _ _ Hw).
  assert (Hentry : entry_or "conversations" (JArr []) fields
                   = JArr (map Conversation_to_dict good ++ JObj record :: rest))
    by (unfold entry_or; rewrite Hconvs; reflexivity).
  rewrite Hentry.
  destruct (Conversation_from_dict_missing record key
              (advance (List.length good) w) Hmissing) as (w2 & Hraise & Hticks).
  pose proof (mapM_Raise_at Conversation_from_dict _ rest _ _ _ _ _ _
                (mapM_Conversation_from_dict good Hgood w) Hraise) as Hwalk.
  unfold try_except, bind, iterate, ret. rewrite Hwalk. simpl.
  eexists. split; [reflexivity |].
  pose proof (only_ticks_trans _ _ _ (only_ticks_advance (List.length good) w) Hticks)
    as (Hs & Hwr & Hc & _).
  simpl. rewrite Hc. repeat split; assumption.
Qed.

Lemma one_bad_record_discards_all_witness :
  exists w',
    ChatBoard_init
      (world_with
         (Document
            (JObj [("conversations",
                    JArr (map Conversation_to_dict [lunch]
                          ++ JObj [("title", JStr "Dinner");
                                   ("conversation_id", JInt 2);
                                   ("messages", JArr [])] :: []));
                   ("next_conversation_id", JInt 3)])))
    = Return (mk_LoadedBoard [] None (JInt 1)) w'
    /\ console w' = [KeyError "created_at"].
Proof.
  destruct (one_bad_record_discards_all
              (world_with
                 (Document
                    (JObj [("conversations",
                            JArr (map Conversation_to_dict [lunch]
                                  ++ JObj [("title", JStr "Dinner");
                                           ("conversation_id", JInt 2);
                                           ("messages", JArr [])] :: []));
                           ("next_conversation_id", JInt 3)])))
              _ _ [lunch] [] "created_at" eq_refl eq_refl)
    as (w' & Hinit & Hconsole & _).
  - repeat constructor.
  - reflexivity.
  - exists w'. split; [exact Hinit | exact Hconsole].
Defined.

(** X14.  The constructor raises [AttributeError] exactly when the file
    exists, parses, and its document is not an object (a list, a string, a
    number, a boolean or null). *)
Theorem attribute_error_iff_not_object (w : World) :
  (exists w', ChatBoard_init w = Raise AttributeError w')
  <-> (exists doc, storage w = Some (Document doc) /\ is_object doc = false).
Proof.
  split.
  - intros [w' Hinit].
    pose proof (load_data_outcome (mk_LoadedBoard [] None (JInt 1)) w) as H.
    unfold ChatBoard_init in Hinit. rewrite Hinit in H.
    destruct H as [_ [doc Hdoc]]. exists doc. split; [exact Hdoc |].
    destruct doc as [| b | n | f | s | items | fields]; try reflexivity.
    exfalso. rewrite (load_data_object _ _ _ Hdoc) in Hinit.
    unfold try_except in Hinit.
    match type of Hinit with context [match ?body w with _ => _ end] =>
      destruct (body w) as [self1 w1 | e w1] eqn:Hbody end;
      [discriminate Hinit |].
    destruct (caught_by_load_data e) eqn:Hcaught; [discriminate Hinit |].
    injection Hinit as -> _.
    assert (Hwalk : walk_error AttributeError = true); [| discriminate Hwalk].
    apply bind_Raise in Hbody as [H | (items & w2 & _ & H)];
      [eapply iterate_Raise; eassumption |].
    apply bind_Raise in H as [H | (convs & w3 & _ & H)]; [| discriminate H].
    eapply (mapM_Raise Conversation_from_dict (fun e => walk_error e = true));
      [| exact H].
    intros x wx ex wx'. apply Conversation_from_dict_Raise.
  - intros (doc & Hdoc & Hshape). exists w.
    unfold ChatBoard_init, load_data. rewrite Hdoc.
    destruct doc; try discriminate Hshape; reflexivity.
Qed.

Lemma attribute_error_iff_not_object_witness :
  exists w', ChatBoard_init (world_with (Document (JStr "conversations")))
             = Raise AttributeError w'.
Proof.
  apply (attribute_error_iff_not_object (world_with (Document (JStr "conversations")))).
  exists (JStr "conversations"). split; reflexivity.
Defined.

(** ** Conversations through their dict *)

(** X15.  [Conversation.from_dict(conv.to_dict())] gives [conv] back
    (title, id or its absence, creation time, messages in order), at the
    cost of one clock reading, exactly when every message of [conv] has a
    non-empty timestamp. *)
Theorem conversation_round_trip_iff (conv : Conversation) (w : World) :
  Forall (fun m => timestamp m <> "") (messages conv)
  <-> Conversation_from_dict (Conversation_to_dict conv) w
      = Return (loaded_of_conversation conv) (with_tick w).
Proof.
  split; [apply Conversation_from_dict_to_dict |].
  intros Hback. apply Conversation_from_dict_timestamps in Hback.
  unfold loaded_of_conversation in Hback. simpl in Hback.
  rewrite Forall_map in Hback. eapply Forall_impl; [| exact Hback].
  intros m H. simpl in H. apply negb_true_iff in H.
  apply String.eqb_neq. exact H.
Qed.

Lemma conversation_round_trip_iff_witness :
  Conversation_from_dict
    (Conversation_to_dict
       (add_message lunch (mk_Message "alice" "hi" "2024-05-17 12:00:00")))
    fresh_world
  = Return (loaded_of_conversation
              (add_message lunch (mk_Message "alice" "hi" "2024-05-17 12:00:00")))
           (with_tick fresh_world).
Proof.
  apply (conversation_round_trip_iff
           (add_message lunch (mk_Message "alice" "hi" "2024-05-17 12:00:00"))
           fresh_world).
  repeat constructor. discriminate.
Defined.

(** ** A [conversations] entry that is no list *)

(** X16.  When the file holds an object whose [conversations] entry is
    not a list, the constructor does not report it.  An empty string and
    an empty object pass for an empty list: the store is built with no
    conversation and the counter of the file, and nothing is printed.
    Every other value (null, a boolean, a number, a non-empty string, a
    non-empty object) makes the constructor raise [TypeError]. *)
Theorem conversations_entry_not_a_list (w : World) (fields : list (string * json))
        (entry : json) :
  storage w = Some (Document (JObj fields)) ->
  dict_lookup "conversations" fields = Some entry ->
  is_list entry = false ->
  ChatBoard_init w
  = if orb (match entry with JStr "" => true | _ => false end)
           (match entry with JObj [] => true | _ => false end)
    then Return (mk_LoadedBoard [] None
                   (entry_or "next_conversation_id" (JInt 1) fields)) w
    else Raise TypeError w.
Proof.
  intros Hw Hentry Hshape. unfold ChatBoard_init.
  rewrite (load_data_object _ _ _ Hw).
  assert (He : entry_or "conversations" (JArr []) fields = entry)
    by (unfold entry_or; rewrite Hentry; reflexivity).
  rewrite He. unfold try_except, bind.
  destruct entry as [| b | n | f | s | items | fs];
    try discriminate Hshape; try reflexivity.
  - destruct s as [| ch s']; reflexivity.
  - destruct fs as [| [k v] fs']; reflexivity.
Qed.

Lemma conversations_entry_not_a_list_witness :
  ChatBoard_init (world_with (Document (JObj [("conversations", JStr "")])))
  = Return (mk_LoadedBoard [] None (JInt 1))
           (world_with (Document (JObj [("conversations", JStr "")])))
  /\ ChatBoard_init (world_with (Document (JObj [("conversations", JInt 0)])))
     = Raise TypeError (world_with (Document (JObj [("conversations", JInt 0)]))).
Proof.
  split.
  - apply (conversations_entry_not_a_list
             (world_with (Document (JObj [("conversations", JStr "")])))
             [("conversations", JStr "")] (JStr "")); reflexivity.
  - apply (conversations_entry_not_a_list
             (world_with (Document (JObj [("conversations", JInt 0)])))
             [("conversations", JInt 0)] (JInt 0)); reflexivity.
Defined.
